(** * Maxus T90 EV vehicle module (vehicle_maxt90.cpp / vehicle_maxt90.h)

    A shallow embedding of the two decoders of [OvmsVehicleMaxt90]:
    [IncomingFrameCan1] (native CAN frames) and [IncomingPollReply]
    (extended OBD-II poll replies), together with the constructor.

    - C [float] is IEEE-754 binary32, modelled with the executable
      specification of [SpecFloat] at precision 24 and [emax] 128
      (round to nearest, ties to even).
    - [uint8_t], [uint16_t] and [uint32_t] are [Z] with the wrap-around of
      the conversions written out.
    - The handlers are [void] methods that mutate the object and the metric
      store; they are embedded in a small state-and-output monad whose
      output is the list of [SetValue] calls in program order. *)

From Stdlib Require Import ZArith List Bool Lia.
From Stdlib Require Import Floats.SpecFloat.
From Stdlib Require Import Strings.Byte Strings.String.
Import ListNotations.
Open Scope Z_scope.

(* ================================================================== *)
(** ** binary32 arithmetic *)

Module Float32.

Definition prec : Z := 24.
Definition emax : Z := 128.

Definition float : Type := spec_float.

(** Conversion of an integer to [float] (exact below 2^24). *)
Definition of_int (z : Z) : float := binary_normalize prec emax z 0 false.

(** [m * 2^e], rounded: used to write literals. *)
Definition of_scaled (m e : Z) : float := binary_normalize prec emax m e false.

Definition div : float -> float -> float := SFdiv prec emax.
Definition mul : float -> float -> float := SFmul prec emax.

(** The C comparison operators; every one is false on a NaN operand,
    except [!=] which is the negation of [==]. *)
Definition ltb (a b : float) : bool := SFltb a b.
Definition leb (a b : float) : bool := SFleb a b.
Definition gtb (a b : float) : bool := SFltb b a.
Definition geb (a b : float) : bool := SFleb b a.
Definition eqb (a b : float) : bool := SFeqb a b.
Definition neb (a b : float) : bool := negb (SFeqb a b).

(** The literals of the source. *)
Definition zero : float := S754_zero false.                        (* 0.0f *)
Definition f0_1 : float :=                                         (* 0.1f *)
  Eval vm_compute in div (of_int 1) (of_int 10).
Definition f10 : float := Eval vm_compute in of_int 10.            (* 10.0f *)
Definition f40 : float := Eval vm_compute in of_int 40.            (* 40.0f *)
Definition f50 : float := Eval vm_compute in of_int 50.            (* 50.0f *)
Definition f88_5 : float := Eval vm_compute in of_scaled 177 (-1). (* 88.5f *)
Definition f100 : float := Eval vm_compute in of_int 100.          (* 100.0f *)
Definition f150 : float := Eval vm_compute in of_int 150.          (* 150.0f *)
Definition f164 : float := Eval vm_compute in of_int 164.          (* 164.0f *)
Definition f280 : float := Eval vm_compute in of_int 280.          (* 280.0f *)
Definition f1000 : float := Eval vm_compute in of_int 1000.        (* 1000.0f *)
Definition f1000000 : float := Eval vm_compute in of_int 1000000.  (* 1000000.0f *)
Definition f125 : float := Eval vm_compute in of_int 125.          (* (float)125 *)
Definition f80 : float := Eval vm_compute in of_int 80.            (* (float)80 *)
Definition fm40 : float := Eval vm_compute in of_int (-40).        (* (float)-40 *)
Definition fm50 : float := Eval vm_compute in of_int (-50).        (* (float)-50 *)

(** A finite, non-negative value [m * 2^e] as the pair of integers
    [(num, den)] with value [num / den]. *)
Definition to_fraction (x : float) : option (Z * Z) :=
  match x with
  | S754_zero _ => Some (0, 1)
  | S754_finite false m e =>
      if 0 <=? e then Some (Z.pos m * 2 ^ e, 1) else Some (Z.pos m, 2 ^ (- e))
  | _ => None
  end.

End Float32.

Import Float32.

(* ================================================================== *)
(** ** Bytes and the byte-order helpers *)

(** The value of a [uint8_t]. *)
Definition u8val (b : byte) : Z := Z.of_N (Byte.to_N b).

(** [p[i]] for a buffer [p]; every read of the decoders is guarded by a
    length test or addresses the fixed 8-byte CAN payload. *)
Definition at_ (p : list byte) (i : nat) : Z := u8val (nth i p x00).

(** [static inline uint16_t u16be(const uint8_t* p)]:
    [(uint16_t(p[0]) << 8) | uint16_t(p[1])], converted to [uint16_t]. *)
Definition u16be (p : list byte) : Z :=
  (Z.lor (Z.shiftl (at_ p 0) 8) (at_ p 1)) mod 2 ^ 16.

(** [static inline uint32_t u24le(const uint8_t* p)]. *)
Definition u24le (p : list byte) : Z :=
  (Z.lor (Z.lor (at_ p 0) (Z.shiftl (at_ p 1) 8)) (Z.shiftl (at_ p 2) 16))
    mod 2 ^ 32.

(* ================================================================== *)
(** ** CAN frames *)

(** Modelled from the spec: [data.u8], the payload buffer of a
    [CAN_frame_t]; it always holds eight bytes, whatever the data length
    code says. *)
Record can_data : Type := mk_can_data {
  b0 : byte; b1 : byte; b2 : byte; b3 : byte;
  b4 : byte; b5 : byte; b6 : byte; b7 : byte
}.

Definition u8 (d : can_data) : list byte :=
  [b0 d; b1 d; b2 d; b3 d; b4 d; b5 d; b6 d; b7 d].

(** Modelled from the spec: [CAN_frame_t] of the CAN driver (can.h), in
    the specification {bus origin, message identifier, data length, at
    most 8 raw bytes}; only the fields the decoder reads.  [origin] is the
    bus the frame came from, identified by its bus number. *)
Record CAN_frame_t : Type := mk_frame {
  origin : nat;
  MsgID : Z;
  DLC : Z;               (* FIR.B.DLC *)
  data : can_data
}.

(** [RegisterCanBus(1, ...)] makes bus 1 the vehicle bus [m_can1]. *)
Definition m_can1 : nat := 1%nat.

(* ================================================================== *)
(** ** The metric store and the object state *)

(** Modelled from the spec: the external Metric Sink ([StdMetrics],
    [MyMetrics] of ovms_metrics.h), a named-value store exposing the
    current value of each metric.  [AsFloat()] and [AsBool()] of a metric
    never set read [0] and [false], which are the initial values here. *)
Record StandardMetrics : Type := mk_metrics {
  ms_v_env_handbrake : bool;
  ms_v_env_locked : bool;
  ms_v_env_on : bool;
  ms_v_charge_pilot : bool;
  ms_v_charge_voltage : float;
  ms_v_charge_current : float;
  ms_v_charge_power : float;
  ms_v_pos_odometer : float;
  ms_v_bat_soc : float;
  ms_v_bat_soh : float;
  ms_v_bat_capacity : float;
  ms_v_env_temp : float;
  ms_v_vin : string
}.

(** The members of [OvmsVehicleMaxt90], the poll state of the poller it
    derives from, and the function-local [static uint8_t last_state] of
    the lock decoder.  A custom metric is reached through a pointer:
    [None] is [nullptr], [Some v] a metric holding [v]. *)
Record Vehicle : Type := mk_vehicle {
  StdMetrics : StandardMetrics;
  m_hvac_temp_c : option float;
  m_pack_capacity_kwh : option float;
  m_ac_voltage : float;
  m_ac_current : float;
  m_poll_state : Z;
  last_state : Z
}.

(** One [SetValue] call on a metric. *)
Inductive MetricWrite : Type :=
| W_env_handbrake (b : bool)
| W_env_locked (b : bool)
| W_env_on (b : bool)
| W_charge_pilot (b : bool)
| W_charge_voltage (v : float)
| W_charge_current (v : float)
| W_charge_power (v : float)
| W_pos_odometer (v : float)
| W_bat_soc (v : float)
| W_bat_soh (v : float)
| W_bat_capacity (v : float)
| W_env_temp (v : float)
| W_vin (s : string)
| W_hvac_temp (v : float).

Definition store_std (w : MetricWrite) (m : StandardMetrics) : StandardMetrics :=
  let '(mk_metrics hb lk on pl cv cc cp od soc soh cap te vin) := m in
  match w with
  | W_env_handbrake b => mk_metrics b lk on pl cv cc cp od soc soh cap te vin
  | W_env_locked b => mk_metrics hb b on pl cv cc cp od soc soh cap te vin
  | W_env_on b => mk_metrics hb lk b pl cv cc cp od soc soh cap te vin
  | W_charge_pilot b => mk_metrics hb lk on b cv cc cp od soc soh cap te vin
  | W_charge_voltage v => mk_metrics hb lk on pl v cc cp od soc soh cap te vin
  | W_charge_current v => mk_metrics hb lk on pl cv v cp od soc soh cap te vin
  | W_charge_power v => mk_metrics hb lk on pl cv cc v od soc soh cap te vin
  | W_pos_odometer v => mk_metrics hb lk on pl cv cc cp v soc soh cap te vin
  | W_bat_soc v => mk_metrics hb lk on pl cv cc cp od v soh cap te vin
  | W_bat_soh v => mk_metrics hb lk on pl cv cc cp od soc v cap te vin
  | W_bat_capacity v => mk_metrics hb lk on pl cv cc cp od soc soh v te vin
  | W_env_temp v => mk_metrics hb lk on pl cv cc cp od soc soh cap v vin
  | W_vin s => mk_metrics hb lk on pl cv cc cp od soc soh cap te s
  | W_hvac_temp _ => m
  end.

(** The effect of a [SetValue] on the whole state: a standard metric is
    stored in [StdMetrics], the HVAC temperature in the metric behind
    [m_hvac_temp_c]. *)
Definition store (w : MetricWrite) (s : Vehicle) : Vehicle :=
  let '(mk_vehicle m hv pc av ac ps ls) := s in
  match w with
  | W_hvac_temp v => mk_vehicle m (option_map (fun _ => v) hv) pc av ac ps ls
  | _ => mk_vehicle (store_std w m) hv pc av ac ps ls
  end.

Definition set_m_ac_voltage (v : float) (s : Vehicle) : Vehicle :=
  let '(mk_vehicle m hv pc _ ac ps ls) := s in mk_vehicle m hv pc v ac ps ls.
Definition set_m_ac_current (v : float) (s : Vehicle) : Vehicle :=
  let '(mk_vehicle m hv pc av _ ps ls) := s in mk_vehicle m hv pc av v ps ls.
Definition set_m_poll_state (n : Z) (s : Vehicle) : Vehicle :=
  let '(mk_vehicle m hv pc av ac _ ls) := s in mk_vehicle m hv pc av ac n ls.
Definition set_last_state (n : Z) (s : Vehicle) : Vehicle :=
  let '(mk_vehicle m hv pc av ac ps _) := s in mk_vehicle m hv pc av ac ps n.

(* ================================================================== *)
(** ** The handler monad *)

(** A [void] method: from the state before to the state after and the
    [SetValue] calls made, oldest first. *)
Definition Handler : Type := Vehicle -> Vehicle * list MetricWrite.

Definition skip : Handler := fun s => (s, []).

Definition andThen (h k : Handler) : Handler :=
  fun s =>
    let '(s1, w1) := h s in
    let '(s2, w2) := k s1 in
    (s2, w1 ++ w2).

Definition modify (f : Vehicle -> Vehicle) : Handler := fun s => (f s, []).

(** Read a member or a metric and continue. *)
Definition reading {A : Type} (g : Vehicle -> A) (k : A -> Handler) : Handler :=
  fun s => k (g s) s.

Definition SetValue (w : MetricWrite) : Handler := fun s => (store w s, [w]).

(** A pointer test such as [if (m_pack_capacity_kwh)]. *)
Definition non_null {A : Type} (p : option A) : bool :=
  match p with Some _ => true | None => false end.

(** Modelled from the spec: [PollSetState(n)] of the poller, the
    poll-state change request; the requested state becomes
    [m_poll_state]. *)
Definition PollSetState (n : Z) : Handler := modify (set_m_poll_state n).

Declare Scope handler_scope.
Delimit Scope handler_scope with handler.
Bind Scope handler_scope with Handler.
Notation "h ;; k" := (andThen h k)
  (at level 61, right associativity) : handler_scope.
Notation "'let*' x ':=' g 'in' k" := (reading g (fun x => k))
  (at level 10, x name, g at level 200, k at level 200) : handler_scope.
Open Scope handler_scope.

Definition state_of (r : Vehicle * list MetricWrite) : Vehicle := fst r.
Definition writes_of (r : Vehicle * list MetricWrite) : list MetricWrite := snd r.

(* ================================================================== *)
(** ** Construction *)

(** A metric store in which nothing has been set yet. *)
Definition unset_metrics : StandardMetrics :=
  mk_metrics false false false false zero zero zero zero zero zero zero zero
             EmptyString.

(** [OvmsVehicleMaxt90::OvmsVehicleMaxt90()], run against the metric store
    [m] found at construction.  [MyMetrics.InitFloat] hands out the two
    custom metrics with their initial values [0.0f] and [88.5f]; the usable
    capacity is seeded with the nominal one; the poller starts in state 0;
    both AC caches are cleared.  [last_state] holds its static
    initialiser. *)
Definition OvmsVehicleMaxt90 (m : StandardMetrics) : Vehicle :=
  let hvac := Some zero in
  let pack := Some f88_5 in
  let s0 := mk_vehicle m hvac pack zero zero 0 0x00 in
  let seed_capacity : Handler :=
    let* pack := m_pack_capacity_kwh in
    match pack with
    | Some nominal => SetValue (W_bat_capacity nominal)
    | None => skip
    end in
  state_of
    ((seed_capacity ;;
      PollSetState 0 ;;
      modify (set_m_ac_voltage zero) ;;
      modify (set_m_ac_current zero)) s0).

(* ================================================================== *)
(** ** [IncomingFrameCan1] *)

(** Modelled from the spec: [OvmsVehicleOBDII::IncomingFrameCan1], the
    base-class handler called first "for generic logging / diagnostics";
    it touches nothing the decoders read or write. *)
Definition OvmsVehicleOBDII_IncomingFrameCan1 (p_frame : CAN_frame_t) : Handler :=
  skip.

(** case 0x266: handbrake. *)
Definition case_0x266 (p_frame : CAN_frame_t) : Handler :=
  let d := u8 (data p_frame) in
  if DLC p_frame <? 3 then skip
  else
    let handbrake_on := negb (Z.land (at_ d 2) 0x01 =? 0) in
    SetValue (W_env_handbrake handbrake_on).

(** case 0x281: lock state, de-bounced on [last_state]. *)
Definition case_0x281 (p_frame : CAN_frame_t) : Handler :=
  let d := u8 (data p_frame) in
  let state := at_ d 1 in
  let* last := last_state in
  if negb (state =? last) && ((state =? 0xA9) || (state =? 0xA8)) then
    let locked := state =? 0xA9 in
    SetValue (W_env_locked locked) ;;
    modify (set_last_state state)
  else skip.

(** [(m_ac_voltage * m_ac_current) / 1000.0f] *)
Definition charge_power_kw (s : Vehicle) : float :=
  div (mul (m_ac_voltage s) (m_ac_current s)) f1000.

(** [raw / 100.0f] for the [uint16_t raw] of bytes 0-1. *)
Definition decode_0x362 (p_frame : CAN_frame_t) : float :=
  let d := u8 (data p_frame) in
  let raw := u16be d in
  div (of_int raw) f100.

(** [v >= 150.0f && v <= 280.0f] *)
Definition voltage_sane (v : float) : bool := geb v f150 && leb v f280.

(** case 0x362: AC line voltage. *)
Definition case_0x362 (p_frame : CAN_frame_t) : Handler :=
  let v := decode_0x362 p_frame in
  if voltage_sane v then
    modify (set_m_ac_voltage v) ;;
    SetValue (W_charge_voltage v) ;;
    let* cur := m_ac_current in
    if gtb cur f0_1 then
      let* p_kw := charge_power_kw in
      SetValue (W_charge_power p_kw)
    else skip
  else skip.

(** [raw / 164.0f] for the [uint16_t raw] of bytes 0-1. *)
Definition decode_0x373 (p_frame : CAN_frame_t) : float :=
  let d := u8 (data p_frame) in
  let raw := u16be d in
  div (of_int raw) f164.

(** [i >= 0.1f && i <= 40.0f] *)
Definition current_sane (i : float) : bool := geb i f0_1 && leb i f40.

(** case 0x373: AC line current. *)
Definition case_0x373 (p_frame : CAN_frame_t) : Handler :=
  let i := decode_0x373 p_frame in
  if current_sane i then
    modify (set_m_ac_current i) ;;
    SetValue (W_charge_current i) ;;
    let* volt := m_ac_voltage in
    if gtb volt f10 then
      let* p_kw := charge_power_kw in
      SetValue (W_charge_power p_kw)
    else skip
  else skip.

(** case 0x510: gear candidate, logged only. *)
Definition case_0x510 (p_frame : CAN_frame_t) : Handler :=
  let d := u8 (data p_frame) in
  if DLC p_frame <? 4 then skip
  else
    let raw := at_ d 3 in
    skip.

(** The [uint32_t raw] of case 0x540:
    [(uint32_t)d[4] | ((uint32_t)d[5] << 8) | ((uint32_t)d[6] << 16)]. *)
Definition raw_0x540 (p_frame : CAN_frame_t) : Z :=
  let d := u8 (data p_frame) in
  (Z.lor (Z.lor (at_ d 4) (Z.shiftl (at_ d 5) 8)) (Z.shiftl (at_ d 6) 16))
    mod 2 ^ 32.

(** [km > 0 && km < 1000000.0f] *)
Definition odometer_sane (km : float) : bool :=
  gtb km (of_int 0) && ltb km f1000000.

(** case 0x540: odometer. *)
Definition case_0x540 (p_frame : CAN_frame_t) : Handler :=
  let raw := raw_0x540 p_frame in
  let km := div (of_int raw) f10 in
  if odometer_sane km then
    let* odo := (fun s => ms_v_pos_odometer (StdMetrics s)) in
    if neb odo km then SetValue (W_pos_odometer km) else skip
  else skip.

Definition IncomingFrameCan1 (p_frame : CAN_frame_t) : Handler :=
  OvmsVehicleOBDII_IncomingFrameCan1 p_frame ;;
  if negb (Nat.eqb (origin p_frame) m_can1) then skip
  else
    let id := MsgID p_frame in
    if id =? 0x266 then case_0x266 p_frame
    else if id =? 0x281 then case_0x281 p_frame
    else if id =? 0x362 then case_0x362 p_frame
    else if id =? 0x373 then case_0x373 p_frame
    else if id =? 0x510 then case_0x510 p_frame
    else if id =? 0x540 then case_0x540 p_frame
    else skip.

(* ================================================================== *)
(** ** [IncomingPollReply] *)

(** The reply buffer [data] with its [length]; [job.pid] is the only field
    of the poll job the decoder reads. *)
Record poll_reply : Type := mk_reply {
  pid : Z;
  reply_data : list byte
}.

Definition reply_length (r : poll_reply) : Z :=
  Z.of_nat (List.length (reply_data r)).

(** case 0xF190: VIN. *)
Definition case_0xF190 (r : poll_reply) : Handler :=
  if 1 <=? reply_length r then
    let vin := string_of_list_byte (reply_data r) in
    SetValue (W_vin vin)
  else skip.

(** case 0xE002: SOC. *)
Definition case_0xE002 (r : poll_reply) : Handler :=
  if 1 <=? reply_length r then
    let soc := of_int (at_ (reply_data r) 0) in
    if gtb soc (of_int 0) && leb soc (of_int 100) then
      let* cur := (fun s => ms_v_bat_soc (StdMetrics s)) in
      if neb cur soc then SetValue (W_bat_soc soc) else skip
    else skip
  else skip.

(** The SOH filter: [raw == 0xFFFF || raw == 0x1800 || soh <= 50.0f ||
    soh > 150.0f]. *)
Definition soh_bogus (raw : Z) (soh : float) : bool :=
  (raw =? 0xFFFF) || (raw =? 0x1800) || leb soh f50 || gtb soh f150.

(** case 0xE003: SOH and usable capacity. *)
Definition case_0xE003 (r : poll_reply) : Handler :=
  if 2 <=? reply_length r then
    let raw := u16be (reply_data r) in
    let soh := div (of_int raw) f100 in
    if soh_bogus raw soh then skip
    else
      let* cur := (fun s => ms_v_bat_soh (StdMetrics s)) in
      if neb cur soh then
        SetValue (W_bat_soh soh) ;;
        let* pack := m_pack_capacity_kwh in
        match pack with
        | Some nominal =>
            let usable_kwh := mul nominal (div soh f100) in
            SetValue (W_bat_capacity usable_kwh)
        | None => skip
        end
      else skip
  else skip.

(** The readiness a READY reply computes:
    [uint16_t v = u16be(data); bool ready = (v & 0x000C) != 0;] *)
Definition ready_of (r : poll_reply) : bool :=
  let v := u16be (reply_data r) in
  negb (Z.land v 0x000C =? 0).

(** case 0xE004: READY flag and poll state. *)
Definition case_0xE004 (r : poll_reply) : Handler :=
  if 2 <=? reply_length r then
    let ready := ready_of r in
    let* prev_ready := (fun s => ms_v_env_on (StdMetrics s)) in
    SetValue (W_env_on ready) ;;
    if negb (Bool.eqb ready prev_ready) then
      let* ps := m_poll_state in
      if negb ready && negb (ps =? 0) then PollSetState 0
      else if ready && (ps =? 0) then PollSetState 1
      else skip
    else skip
  else skip.

(** case 0xE009: plug present. *)
Definition case_0xE009 (r : poll_reply) : Handler :=
  if 2 <=? reply_length r then
    let v := u16be (reply_data r) in
    let plug_present := Z.land v 0x00FF =? 0x00 in
    SetValue (W_charge_pilot plug_present)
  else skip.

(** The generic temperature filter of 0xE010. *)
Definition hvac_bogus (raw : Z) (t : float) : bool :=
  (raw =? 0x0200) || (raw =? 0xFFFF) || ltb t fm40 || gtb t f125.

(** case 0xE010: HVAC / coolant temperature. *)
Definition case_0xE010 (r : poll_reply) : Handler :=
  let* hvac := m_hvac_temp_c in
  if (2 <=? reply_length r) && non_null hvac then
    let raw := u16be (reply_data r) in
    let t := div (of_int raw) f10 in
    let* env_on := (fun s => ms_v_env_on (StdMetrics s)) in
    if negb env_on && (raw =? 458) then skip
    else if hvac_bogus raw t then skip
    else SetValue (W_hvac_temp t)
  else skip.

(** The generic temperature filter of 0xE025. *)
Definition ambient_bogus (raw : Z) (ta : float) : bool :=
  (raw =? 0x0200) || (raw =? 0xFFFF) || ltb ta fm50 || gtb ta f80.

(** case 0xE025: ambient temperature. *)
Definition case_0xE025 (r : poll_reply) : Handler :=
  if 2 <=? reply_length r then
    let raw := u16be (reply_data r) in
    let ta := div (of_int raw) f10 in
    let* env_on := (fun s => ms_v_env_on (StdMetrics s)) in
    if negb env_on && (raw =? 75) then skip
    else if ambient_bogus raw ta then skip
    else SetValue (W_env_temp ta)
  else skip.

Definition IncomingPollReply (r : poll_reply) : Handler :=
  let p := pid r in
  if p =? 0xF190 then case_0xF190 r
  else if p =? 0xE002 then case_0xE002 r
  else if p =? 0xE003 then case_0xE003 r
  else if p =? 0xE004 then case_0xE004 r
  else if p =? 0xE009 then case_0xE009 r
  else if p =? 0xE010 then case_0xE010 r
  else if p =? 0xE025 then case_0xE025 r
  else skip.

(* ================================================================== *)
(** ** Sequences of deliveries *)

(** What the Frame/Reply Source delivers. *)
Inductive Event : Type :=
| Frame (p_frame : CAN_frame_t)
| Reply (r : poll_reply).

Definition handle (e : Event) : Handler :=
  match e with
  | Frame f => IncomingFrameCan1 f
  | Reply r => IncomingPollReply r
  end.

(** The state after an event. *)
Definition step (s : Vehicle) (e : Event) : Vehicle := state_of (handle e s).

(** The [SetValue] calls an event causes. *)
Definition emitted (s : Vehicle) (e : Event) : list MetricWrite :=
  writes_of (handle e s).

(** The state after a whole sequence, delivered oldest first. *)
Definition run (s : Vehicle) (tr : list Event) : Vehicle := fold_left step tr s.

Definition after (m : StandardMetrics) (tr : list Event) : Vehicle :=
  run (OvmsVehicleMaxt90 m) tr.

(* ================================================================== *)
(** ** Vocabulary of the properties *)

(** A frame of the vehicle bus carrying the identifier [id]. *)
Definition on_vehicle_bus (id : Z) (p_frame : CAN_frame_t) : bool :=
  Nat.eqb (origin p_frame) m_can1 && (MsgID p_frame =? id).

(** The sample an event contributes to the AC-voltage cache: the decoded
    voltage of a 0x362 frame that passes the range test. *)
Definition accepted_voltage (e : Event) : option float :=
  match e with
  | Frame f =>
      if on_vehicle_bus 0x362 f && voltage_sane (decode_0x362 f)
      then Some (decode_0x362 f) else None
  | Reply _ => None
  end.

(** The same for the AC-current cache and 0x373. *)
Definition accepted_current (e : Event) : option float :=
  match e with
  | Frame f =>
      if on_vehicle_bus 0x373 f && current_sane (decode_0x373 f)
      then Some (decode_0x373 f) else None
  | Reply _ => None
  end.

(** The most recent sample of a sequence delivered oldest first. *)
Fixpoint last_sample (g : Event -> option float) (tr : list Event) : option float :=
  match tr with
  | [] => None
  | e :: tr' =>
      match last_sample g tr' with
      | Some v => Some v
      | None => g e
      end
  end.

Definition or_default (o : option float) : float :=
  match o with Some v => v | None => zero end.

(** The values written to the charge-power metric among some writes. *)
Fixpoint power_writes (ws : list MetricWrite) : list float :=
  match ws with
  | [] => []
  | W_charge_power p :: ws' => p :: power_writes ws'
  | _ :: ws' => power_writes ws'
  end.

(** The values written to the usable-capacity metric among some writes. *)
Fixpoint capacity_writes (ws : list MetricWrite) : list float :=
  match ws with
  | [] => []
  | W_bat_capacity c :: ws' => c :: capacity_writes ws'
  | _ :: ws' => capacity_writes ws'
  end.

(** The poll states. *)
Definition POLL_OFF : Z := 0.
Definition POLL_ON : Z := 1.

(** The transition rule of the poll-rate state machine as the
    specification words it (section 4.5), to be compared with what
    [case_0xE004] does. *)
Definition spec_poll_transition (ready : bool) (st : Z) : Z :=
  if negb ready && negb (st =? POLL_OFF) then POLL_OFF
  else if ready && (st =? POLL_OFF) then POLL_ON
  else st.

(** The percentage an SOH reply decodes to: [raw / 100.0f]. *)
Definition soh_of (r : poll_reply) : float :=
  div (of_int (u16be (reply_data r))) f100.

(** An SOH reply that is long enough and passes the filter. *)
Definition soh_accepted (r : poll_reply) : bool :=
  (pid r =? 0xE003) && (2 <=? reply_length r)
  && negb (soh_bogus (u16be (reply_data r)) (soh_of r)).

(** Its value differs from the published SOH:
    [StdMetrics.ms_v_bat_soh->AsFloat() != soh]. *)
Definition soh_changed (s : Vehicle) (r : poll_reply) : bool :=
  neb (ms_v_bat_soh (StdMetrics s)) (soh_of r).

(** The link between the poll state and the readiness metric that the
    READY decoder maintains. *)
Definition poll_inv (s : Vehicle) : Prop :=
  m_poll_state s = if ms_v_env_on (StdMetrics s) then POLL_ON else POLL_OFF.

(** A READY reply long enough to be decoded. *)
Definition accepted_ready (e : Event) : bool :=
  match e with
  | Reply r => (pid r =? 0xE004) && (2 <=? reply_length r)
  | Frame _ => false
  end.

(** The dispatch of one delivery, as a relation: which decoder, if any,
    ran on the state [s], and under which condition on the event. *)
Inductive handled (s : Vehicle) : Event -> Vehicle * list MetricWrite -> Prop :=
| H_other_bus f :
    Nat.eqb (origin f) m_can1 = false ->
    handled s (Frame f) (s, [])
| H_0x266 f :
    Nat.eqb (origin f) m_can1 = true -> MsgID f = 0x266 ->
    handled s (Frame f) (case_0x266 f s)
| H_0x281 f :
    Nat.eqb (origin f) m_can1 = true -> MsgID f = 0x281 ->
    handled s (Frame f) (case_0x281 f s)
| H_0x362 f :
    Nat.eqb (origin f) m_can1 = true -> MsgID f = 0x362 ->
    handled s (Frame f) (case_0x362 f s)
| H_0x373 f :
    Nat.eqb (origin f) m_can1 = true -> MsgID f = 0x373 ->
    handled s (Frame f) (case_0x373 f s)
| H_0x510 f :
    Nat.eqb (origin f) m_can1 = true -> MsgID f = 0x510 ->
    handled s (Frame f) (case_0x510 f s)
| H_0x540 f :
    Nat.eqb (origin f) m_can1 = true -> MsgID f = 0x540 ->
    handled s (Frame f) (case_0x540 f s)
| H_unknown_frame f :
    Nat.eqb (origin f) m_can1 = true ->
    (MsgID f =? 0x266) = false -> (MsgID f =? 0x281) = false ->
    (MsgID f =? 0x362) = false -> (MsgID f =? 0x373) = false ->
    (MsgID f =? 0x510) = false -> (MsgID f =? 0x540) = false ->
    handled s (Frame f) (s, [])
| H_0xF190 r : pid r = 0xF190 -> handled s (Reply r) (case_0xF190 r s)
| H_0xE002 r : pid r = 0xE002 -> handled s (Reply r) (case_0xE002 r s)
| H_0xE003 r : pid r = 0xE003 -> handled s (Reply r) (case_0xE003 r s)
| H_0xE004 r : pid r = 0xE004 -> handled s (Reply r) (case_0xE004 r s)
| H_0xE009 r : pid r = 0xE009 -> handled s (Reply r) (case_0xE009 r s)
| H_0xE010 r : pid r = 0xE010 -> handled s (Reply r) (case_0xE010 r s)
| H_0xE025 r : pid r = 0xE025 -> handled s (Reply r) (case_0xE025 r s)
| H_unknown_pid r :
    (pid r =? 0xF190) = false -> (pid r =? 0xE002) = false ->
    (pid r =? 0xE003) = false -> (pid r =? 0xE004) = false ->
    (pid r =? 0xE009) = false -> (pid r =? 0xE010) = false ->
    (pid r =? 0xE025) = false ->
    handled s (Reply r) (s, []).

(** Bounded universal quantification over [z, z + n). *)
Fixpoint all_from (n : nat) (z : Z) (p : Z -> bool) : bool :=
  match n with
  | O => true
  | S k => p z && all_from k (z + 1) p
  end.

(** For one raw value: the range test on [raw / 100.0f] agrees with
    [15000 <= raw <= 28000], and an accepted voltage [num / den] lies
    within [2^-16] of [raw / 100]. *)
Definition voltage_check (raw : Z) : bool :=
  let v := div (of_int raw) f100 in
  Bool.eqb (voltage_sane v) ((15000 <=? raw) && (raw <=? 28000))
  && (negb (voltage_sane v)
      || match to_fraction v with
         | Some (num, den) =>
             Z.abs (100 * num - raw * den) * 2 ^ 16 <=? 100 * den
         | None => false
         end).

(** For one raw value: a current [raw / 164.0f] that passes the range test
    is strictly above [0.1f]. *)
Definition current_check (raw : Z) : bool :=
  let i := div (of_int raw) f164 in
  implb (current_sane i) (gtb i f0_1).

(** A frame builder for the examples. *)
Definition frame_of (id dlc : Z) (bs : can_data) : CAN_frame_t :=
  mk_frame m_can1 id dlc bs.

(** ** Example deliveries *)

Definition payload (a b c d e f g h : byte) : can_data :=
  mk_can_data a b c d e f g h.

(** The vehicle right after construction over an untouched metric store. *)
Definition fresh : Vehicle := OvmsVehicleMaxt90 unset_metrics.

(** 0x362 with raw 22600 (0x5848): 226.00 V. *)
Definition volt_226 : CAN_frame_t :=
  frame_of 0x362 8 (payload x58 x48 x00 x00 x00 x00 x00 x00).

(** 0x362 with raw 100: 1.00 V, out of range. *)
Definition volt_1 : CAN_frame_t :=
  frame_of 0x362 8 (payload x00 x64 x00 x00 x00 x00 x00 x00).

(** 0x373 with raw 2388 (0x0954): about 14.56 A. *)
Definition amp_14 : CAN_frame_t :=
  frame_of 0x373 8 (payload x09 x54 x00 x00 x00 x00 x00 x00).

(** 0x281 with byte 1 = 0xA9 (locked) and 0xA8 (unlocked). *)
Definition lock_A9 : CAN_frame_t :=
  frame_of 0x281 8 (payload x00 xa9 x00 x00 x00 x00 x00 x00).
Definition lock_A8 : CAN_frame_t :=
  frame_of 0x281 8 (payload x00 xa8 x00 x00 x00 x00 x00 x00).

(** 0x540 announcing five data bytes only, byte 4 = 0x90. *)
Definition odo_short : CAN_frame_t :=
  frame_of 0x540 5 (payload x00 x00 x00 x00 x90 x00 x00 x00).

(** 0x362 announcing a single data byte, 0x58. *)
Definition volt_short : CAN_frame_t :=
  frame_of 0x362 1 (payload x58 x00 x00 x00 x00 x00 x00 x00).

(** READY replies: bit 2 set, and no bit set. *)
Definition ready_on : poll_reply := mk_reply 0xE004 [x00; x04].
Definition ready_off : poll_reply := mk_reply 0xE004 [x00; x00].

(** SOH replies: 0x251C = 95.00 %, and the placeholder 0x1800. *)
Definition soh_95 : poll_reply := mk_reply 0xE003 [x25; x1c].
Definition soh_placeholder : poll_reply := mk_reply 0xE003 [x18; x00].

(** HVAC temperature reply with raw 458 (0x01CA). *)
Definition hvac_458 : poll_reply := mk_reply 0xE010 [x01; xca].

(** A VIN reply. *)
Definition vin_reply : poll_reply :=
  mk_reply 0xF190 (list_byte_of_string "LSFAM11A0PA000001").

(* ================================================================== *)
(** ** The poll list *)

(** Modelled from the spec: the poll type and the transport protocol of a
    poll list entry ([VEHICLE_POLL_TYPE_OBDIIEXTENDED], [ISOTP_STD] of the
    poller); the list uses one of each. *)
Inductive poll_type_t : Type := VEHICLE_POLL_TYPE_OBDIIEXTENDED.
Inductive protocol_t : Type := ISOTP_STD.

(** Modelled from the spec: [OvmsPoller::poll_pid_t].  [polltime] holds the
    poll period in seconds for each poll state, state 0 first; a period of
    0 means the PID is not polled in that state, and a state beyond the
    initialiser reads 0. *)
Record poll_pid_t : Type := mk_poll {
  txmoduleid : Z;
  rxmoduleid : Z;
  poll_type : poll_type_t;
  poll_pid : Z;
  polltime : list Z;
  pollbus : Z;
  poll_protocol : protocol_t
}.

(** [static const OvmsPoller::poll_pid_t maxt90_polls[]] of the
    constructor, without its end marker. *)
Definition maxt90_polls : list poll_pid_t :=
  [ mk_poll 0x7e3 0x7eb VEHICLE_POLL_TYPE_OBDIIEXTENDED 0xF190 [0; 3600; 3600] 0 ISOTP_STD;
    mk_poll 0x7e3 0x7eb VEHICLE_POLL_TYPE_OBDIIEXTENDED 0xE002 [0; 10; 10] 0 ISOTP_STD;
    mk_poll 0x7e3 0x7eb VEHICLE_POLL_TYPE_OBDIIEXTENDED 0xE003 [0; 1800; 1800] 0 ISOTP_STD;
    mk_poll 0x7e3 0x7eb VEHICLE_POLL_TYPE_OBDIIEXTENDED 0xE004 [5; 10; 10] 0 ISOTP_STD;
    mk_poll 0x7e3 0x7eb VEHICLE_POLL_TYPE_OBDIIEXTENDED 0xE009 [0; 10; 10] 0 ISOTP_STD;
    mk_poll 0x7e3 0x7eb VEHICLE_POLL_TYPE_OBDIIEXTENDED 0xE010 [0; 30; 30] 0 ISOTP_STD;
    mk_poll 0x7e3 0x7eb VEHICLE_POLL_TYPE_OBDIIEXTENDED 0xE025 [0; 30; 30] 0 ISOTP_STD ].

(** The poll period of an entry in poll state [st]. *)
Definition poll_period (st : Z) (p : poll_pid_t) : Z :=
  nth (Z.to_nat st) (polltime p) 0.

(** The PIDs polled in poll state [st], in list order. *)
Definition polled_in (st : Z) : list Z :=
  map poll_pid (filter (fun p => negb (poll_period st p =? 0)) maxt90_polls).

(* ================================================================== *)
(** ** Further vocabulary *)

(** The decoder a delivery is dispatched to; the dispatch reads the event
    only, never the state. *)
Inductive decoder_for : Event -> Handler -> Prop :=
| D_other_bus f :
    Nat.eqb (origin f) m_can1 = false -> decoder_for (Frame f) skip
| D_0x266 f :
    Nat.eqb (origin f) m_can1 = true -> MsgID f = 0x266 ->
    decoder_for (Frame f) (case_0x266 f)
| D_0x281 f :
    Nat.eqb (origin f) m_can1 = true -> MsgID f = 0x281 ->
    decoder_for (Frame f) (case_0x281 f)
| D_0x362 f :
    Nat.eqb (origin f) m_can1 = true -> MsgID f = 0x362 ->
    decoder_for (Frame f) (case_0x362 f)
| D_0x373 f :
    Nat.eqb (origin f) m_can1 = true -> MsgID f = 0x373 ->
    decoder_for (Frame f) (case_0x373 f)
| D_0x510 f :
    Nat.eqb (origin f) m_can1 = true -> MsgID f = 0x510 ->
    decoder_for (Frame f) (case_0x510 f)
| D_0x540 f :
    Nat.eqb (origin f) m_can1 = true -> MsgID f = 0x540 ->
    decoder_for (Frame f) (case_0x540 f)
| D_unknown_frame f :
    Nat.eqb (origin f) m_can1 = true ->
    (MsgID f =? 0x266) = false -> (MsgID f =? 0x281) = false ->
    (MsgID f =? 0x362) = false -> (MsgID f =? 0x373) = false ->
    (MsgID f =? 0x510) = false -> (MsgID f =? 0x540) = false ->
    decoder_for (Frame f) skip
| D_0xF190 r : pid r = 0xF190 -> decoder_for (Reply r) (case_0xF190 r)
| D_0xE002 r : pid r = 0xE002 -> decoder_for (Reply r) (case_0xE002 r)
| D_0xE003 r : pid r = 0xE003 -> decoder_for (Reply r) (case_0xE003 r)
| D_0xE004 r : pid r = 0xE004 -> decoder_for (Reply r) (case_0xE004 r)
| D_0xE009 r : pid r = 0xE009 -> decoder_for (Reply r) (case_0xE009 r)
| D_0xE010 r : pid r = 0xE010 -> decoder_for (Reply r) (case_0xE010 r)
| D_0xE025 r : pid r = 0xE025 -> decoder_for (Reply r) (case_0xE025 r)
| D_unknown_pid r :
    (pid r =? 0xF190) = false -> (pid r =? 0xE002) = false ->
    (pid r =? 0xE003) = false -> (pid r =? 0xE004) = false ->
    (pid r =? 0xE009) = false -> (pid r =? 0xE010) = false ->
    (pid r =? 0xE025) = false ->
    decoder_for (Reply r) skip.





(** The decoded values of the other 16-bit signals. *)
Definition temp_of (r : poll_reply) : float :=
  div (of_int (u16be (reply_data r))) f10.

Definition soc_of (r : poll_reply) : float :=
  of_int (at_ (reply_data r) 0).

Definition km_of (p_frame : CAN_frame_t) : float :=
  div (of_int (raw_0x540 p_frame)) f10.

(** For one 16-bit raw value, the float tests of the decoders against
    their integer readings: current range, SOH bounds, temperature
    bounds, and that no decoded value is a NaN. *)
Definition raw16_check (raw : Z) : bool :=
  let v100 := div (of_int raw) f100 in
  let v10 := div (of_int raw) f10 in
  let v164 := div (of_int raw) f164 in
  Bool.eqb (current_sane v164) ((17 <=? raw) && (raw <=? 6560))
  && Bool.eqb (leb v100 f50) (raw <=? 5000)
  && Bool.eqb (gtb v100 f150) (15000 <? raw)
  && eqb v100 v100
  && negb (ltb v10 fm40) && negb (ltb v10 fm50)
  && Bool.eqb (gtb v10 f125) (1250 <? raw)
  && Bool.eqb (gtb v10 f80) (800 <? raw)
  && eqb v10 v10.

(** For one byte, the SOC test [soc > 0 && soc <= 100] against its integer
    reading, and the exactness of the conversion. *)
Definition soc_check (b : Z) : bool :=
  let soc := of_int b in
  Bool.eqb (gtb soc (of_int 0) && leb soc (of_int 100)) ((1 <=? b) && (b <=? 100))
  && match to_fraction soc with
     | Some (num, den) => num =? b * den
     | None => false
     end.

(** Example deliveries for the further properties. *)
Definition brake_on : CAN_frame_t :=
  frame_of 0x266 8 (payload x00 x00 x01 x00 x00 x00 x00 x00).
Definition odo_192656 : CAN_frame_t :=
  frame_of 0x540 8 (payload x00 x00 x00 x00 x90 xf0 x02 x00).
Definition soc_80 : poll_reply := mk_reply 0xE002 [x50].
Definition plug_in : poll_reply := mk_reply 0xE009 [x12; x00].
Definition ambient_75 : poll_reply := mk_reply 0xE025 [x00; x4b].
Definition ambient_215 : poll_reply := mk_reply 0xE025 [x00; xd7].
Definition hvac_215 : poll_reply := mk_reply 0xE010 [x00; xd7].
Definition gear_frame : CAN_frame_t :=
  frame_of 0x510 8 (payload x10 x49 x5c x33 x00 x10 x1e x00).

(** The parts of the state that only poll replies write. *)
Definition reply_owned_equal (s s' : Vehicle) : Prop :=
  ms_v_env_on (StdMetrics s') = ms_v_env_on (StdMetrics s) /\
  ms_v_charge_pilot (StdMetrics s') = ms_v_charge_pilot (StdMetrics s) /\
  ms_v_bat_soc (StdMetrics s') = ms_v_bat_soc (StdMetrics s) /\
  ms_v_bat_soh (StdMetrics s') = ms_v_bat_soh (StdMetrics s) /\
  ms_v_bat_capacity (StdMetrics s') = ms_v_bat_capacity (StdMetrics s) /\
  ms_v_env_temp (StdMetrics s') = ms_v_env_temp (StdMetrics s) /\
  ms_v_vin (StdMetrics s') = ms_v_vin (StdMetrics s) /\
  m_hvac_temp_c s' = m_hvac_temp_c s /\
  m_pack_capacity_kwh s' = m_pack_capacity_kwh s /\
  m_poll_state s' = m_poll_state s.

(** The parts of the state that only CAN frames write. *)
Definition frame_owned_equal (s s' : Vehicle) : Prop :=
  ms_v_env_handbrake (StdMetrics s') = ms_v_env_handbrake (StdMetrics s) /\
  ms_v_env_locked (StdMetrics s') = ms_v_env_locked (StdMetrics s) /\
  ms_v_charge_voltage (StdMetrics s') = ms_v_charge_voltage (StdMetrics s) /\
  ms_v_charge_current (StdMetrics s') = ms_v_charge_current (StdMetrics s) /\
  ms_v_charge_power (StdMetrics s') = ms_v_charge_power (StdMetrics s) /\
  ms_v_pos_odometer (StdMetrics s') = ms_v_pos_odometer (StdMetrics s) /\
  m_ac_voltage s' = m_ac_voltage s /\
  m_ac_current s' = m_ac_current s /\
  last_state s' = last_state s.

Definition is_frame (e : Event) : bool :=
  match e with Frame _ => true | Reply _ => false end.

(** What a delivery of one kind leaves alone. *)
Definition untouched_by (e : Event) (s s' : Vehicle) : Prop :=
  if is_frame e then reply_owned_equal s s' else frame_owned_equal s s'.


(** Half and one and a half times the nominal capacity: 44.25f, 132.75f. *)
Definition f44_25 : float := Eval vm_compute in of_scaled 177 (-2).
Definition f132_75 : float := Eval vm_compute in of_scaled 531 (-2).

Definition capacity_in_bounds (c : float) : bool :=
  leb f44_25 c && leb c f132_75.

(** For one raw SOH that passes the filter, the usable capacity derived
    from it lies within the bounds. *)
Definition capacity_check (raw : Z) : bool :=
  let soh := div (of_int raw) f100 in
  soh_bogus raw soh || capacity_in_bounds (mul f88_5 (div soh f100)).

(** The usable capacity is the seed or was derived from a raw SOH that
    passed the filter and is the published SOH. *)
Definition capacity_inv (s : Vehicle) : Prop :=
  m_pack_capacity_kwh s = Some f88_5 /\
  (ms_v_bat_capacity (StdMetrics s) = f88_5 \/
   exists raw,
     0 <= raw < 65536 /\
     soh_bogus raw (div (of_int raw) f100) = false /\
     ms_v_bat_soh (StdMetrics s) = div (of_int raw) f100 /\
     ms_v_bat_capacity (StdMetrics s) =
       mul f88_5 (div (ms_v_bat_soh (StdMetrics s)) f100)).

(** The same frame announcing another data length. *)
Definition with_DLC (p_frame : CAN_frame_t) (dlc : Z) : CAN_frame_t :=
  mk_frame (origin p_frame) (MsgID p_frame) dlc (data p_frame).

(* ================================================================== *)
(** * Verification *)

Arguments div : simpl never.
Arguments mul : simpl never.
Arguments of_int : simpl never.
Arguments u16be : simpl never.
Arguments geb : simpl never.
Arguments leb : simpl never.
Arguments gtb : simpl never.
Arguments ltb : simpl never.
Arguments neb : simpl never.
Arguments string_of_list_byte : simpl never.

Ltac unfold_handlers :=
  unfold step, emitted, handle, IncomingFrameCan1, IncomingPollReply,
    OvmsVehicleOBDII_IncomingFrameCan1,
    case_0x266, case_0x281, case_0x362, case_0x373, case_0x510, case_0x540,
    case_0xF190, case_0xE002, case_0xE003, case_0xE004, case_0xE009,
    case_0xE010, case_0xE025,
    andThen, reading, modify, SetValue, PollSetState, skip,
    state_of, writes_of.

Ltac destruct_vehicle s :=
  destruct s as [[? ? ? ? ? ? ? ? ? ? ? ? ?] ? ? ? ? ? ?].

Ltac break_if :=
  match goal with
  | |- context [if ?c then _ else _] => destruct c eqn:?; cbn
  end.

(** ** Bytes and [u16be] *)

Lemma u8val_range (b : byte) : 0 <= u8val b < 256.
Proof.
  unfold u8val. pose proof (Byte.to_N_bounded b). lia.
Qed.

Lemma lor_shiftl_8 (a b : Z) :
  0 <= a -> 0 <= b < 256 -> Z.lor (Z.shiftl a 8) b = 256 * a + b.
Proof.
  intros Ha Hb.
  assert (Hdisj : Z.land (Z.shiftl a 8) b = 0).
  { apply Z.bits_inj'. intros n Hn.
    rewrite Z.land_spec, Z.bits_0.
    destruct (Z_lt_le_dec n 8) as [Hlt | Hge].
    - rewrite Z.shiftl_spec_low by lia. reflexivity.
    - replace (Z.testbit b n) with false; [apply andb_false_r|].
      symmetry. destruct (Z.eq_dec b 0) as [-> | Hnz]; [apply Z.bits_0|].
      apply Z.bits_above_log2; [lia|].
      apply Z.log2_lt_pow2; [lia|].
      apply Z.lt_le_trans with (2 ^ 8); [lia|].
      apply Z.pow_le_mono_r; lia. }
  rewrite <- Z.lxor_lor by exact Hdisj.
  rewrite <- Z.add_nocarry_lxor by exact Hdisj.
  rewrite Z.shiftl_mul_pow2 by lia. lia.
Qed.

Lemma u16be_value (p : list byte) : u16be p = 256 * at_ p 0 + at_ p 1.
Proof.
  unfold u16be, at_.
  pose proof (u8val_range (nth 0 p x00)).
  pose proof (u8val_range (nth 1 p x00)).
  rewrite lor_shiftl_8 by lia.
  apply Z.mod_small. lia.
Qed.

Lemma u16be_range (p : list byte) : 0 <= u16be p < 65536.
Proof.
  unfold u16be. apply Z.mod_pos_bound. reflexivity.
Qed.

(** ** Exhaustive check of the voltage decode *)

Lemma all_from_spec (p : Z -> bool) (n : nat) :
  forall z, all_from n z p = true ->
  forall x, z <= x < z + Z.of_nat n -> p x = true.
Proof.
  induction n as [|k IH]; intros z H x Hx.
  - simpl in Hx. lia.
  - simpl in H. apply andb_true_iff in H. destruct H as [Hz Hk].
    destruct (Z.eq_dec x z) as [-> | Hne]; [exact Hz|].
    apply (IH (z + 1) Hk). lia.
Qed.

Lemma voltage_check_all : all_from (Z.to_nat 65536) 0 voltage_check = true.
Proof. vm_cast_no_check (eq_refl true). Qed.

Lemma voltage_check_raw (raw : Z) :
  0 <= raw < 65536 -> voltage_check raw = true.
Proof.
  intros H. apply (all_from_spec _ _ _ voltage_check_all). 
  rewrite Z2Nat.id; lia.
Qed.

Lemma current_check_all : all_from (Z.to_nat 65536) 0 current_check = true.
Proof. vm_cast_no_check (eq_refl true). Qed.

Lemma current_sane_above_threshold (f : CAN_frame_t) :
  current_sane (decode_0x373 f) = true -> gtb (decode_0x373 f) f0_1 = true.
Proof.
  unfold decode_0x373. intros Hs.
  pose proof (u16be_range (u8 (data f))) as Hr.
  assert (Hc : current_check (u16be (u8 (data f))) = true).
  { apply (all_from_spec _ _ _ current_check_all). rewrite Z2Nat.id; lia. }
  unfold current_check in Hc. rewrite Hs in Hc. exact Hc.
Qed.

Lemma voltage_sane_above_threshold (v : float) :
  voltage_sane v = true -> gtb v f10 = true.
Proof.
  unfold voltage_sane. intros H. apply andb_true_iff in H. destruct H as [H _].
  unfold geb, gtb, leb, ltb, SFleb, SFltb, f150, f10 in *.
  destruct v as [sg | sg | | sg mant ex]; try destruct sg;
    try reflexivity; try discriminate H.
  unfold SFcompare in *.
  assert (Hex : -16 <= ex).
  { destruct (Z.compare_spec (-16) ex) as [He | He | He];
      [lia | lia | discriminate H]. }
  assert (Hlt : (-20 ?= ex) = Lt) by (apply Z.compare_lt_iff; lia).
  rewrite Hlt. reflexivity.
Qed.

(** ** Single deliveries *)

(** C6.  A 0x362 frame of the vehicle bus decodes bytes 0-1, most
    significant first, to [raw / 100.0f]; the range test
    [150 <= v <= 280] holds exactly for [15000 <= raw <= 28000], where the
    decoded value is within [2^-16] V of [raw / 100].  The test alone
    decides: when it passes, the cache and the charge-voltage metric take
    the value and the power is recomputed if a current is cached; when it
    fails, neither the state nor any metric changes. *)
Theorem C6_ac_voltage_gate (s : Vehicle) (f : CAN_frame_t) :
  origin f = m_can1 -> MsgID f = 0x362 ->
  let raw := 256 * u8val (b0 (data f)) + u8val (b1 (data f)) in
  let v := div (of_int raw) f100 in
  decode_0x362 f = v /\
  (voltage_sane v = true <-> 15000 <= raw <= 28000) /\
  (voltage_sane v = true ->
     (exists num den, to_fraction v = Some (num, den) /\
        Z.abs (100 * num - raw * den) * 2 ^ 16 <= 100 * den) /\
     m_ac_voltage (step s (Frame f)) = v /\
     ms_v_charge_voltage (StdMetrics (step s (Frame f))) = v /\
     emitted s (Frame f) =
       W_charge_voltage v ::
       (if gtb (m_ac_current s) f0_1
        then [W_charge_power (div (mul v (m_ac_current s)) f1000)]
        else [])) /\
  (voltage_sane v = false ->
     step s (Frame f) = s /\ emitted s (Frame f) = []).
Proof.
  intros Ho Hid raw v.
  assert (Hdec : decode_0x362 f = v).
  { unfold decode_0x362. rewrite u16be_value. reflexivity. }
  assert (Hraw : 0 <= raw < 65536).
  { subst raw. pose proof (u8val_range (b0 (data f))).
    pose proof (u8val_range (b1 (data f))). lia. }
  pose proof (voltage_check_raw raw Hraw) as Hchk.
  unfold voltage_check in Hchk. fold v in Hchk.
  apply andb_true_iff in Hchk. destruct Hchk as [Hiff Herr].
  apply eqb_prop in Hiff.
  split; [exact Hdec|]. split; [|split].
  - rewrite Hiff, andb_true_iff, Z.leb_le, Z.leb_le. tauto.
  - intros Hacc. rewrite Hacc in Herr. simpl in Herr.
    split.
    + destruct (to_fraction v) as [[num den]|]; [|discriminate].
      exists num, den. split; [reflexivity|]. apply Z.leb_le. exact Herr.
    + unfold_handlers. rewrite Ho, Hid, Hdec. simpl. rewrite Hacc.
      destruct_vehicle s. simpl.
      break_if; auto.
  - intros Hrej. unfold_handlers. rewrite Ho, Hid, Hdec. simpl.
    rewrite Hrej. auto.
Qed.

Lemma C6_ac_voltage_gate_witness :
  voltage_sane (decode_0x362 volt_226) = true /\
  m_ac_voltage (step fresh (Frame volt_226)) = S754_finite false 14811136 (-16) /\
  emitted fresh (Frame volt_226) =
    [W_charge_voltage (S754_finite false 14811136 (-16))] /\
  step fresh (Frame volt_1) = fresh.
Proof.
  pose proof (C6_ac_voltage_gate fresh volt_226 eq_refl eq_refl) as H.
  pose proof (C6_ac_voltage_gate fresh volt_1 eq_refl eq_refl) as H1.
  cbv zeta in H, H1.
  destruct H as (Hd & _ & Hacc & _). destruct H1 as (_ & _ & _ & Hrej).
  assert (Hs : voltage_sane (decode_0x362 volt_226) = true) by (vm_compute; reflexivity).
  split; [exact Hs|].
  rewrite Hd in Hs. destruct (Hacc Hs) as (_ & Hv & _ & Hw).
  split; [rewrite Hv; vm_compute; reflexivity|].
  split; [rewrite Hw; vm_compute; reflexivity|].
  apply Hrej. vm_compute. reflexivity.
Defined.

(** C3.  An SOH reply of at least two bytes is dropped, with no write at
    all and the state untouched (so neither the SOH metric nor the usable
    capacity changes), when raw is 0xFFFF or 0x1800 or the percentage is
    at most 50 or above 150.  The placeholder 0x1800 is dropped although
    its percentage passes both range tests. *)
Theorem C3_soh_rejected :
  (forall (s : Vehicle) (r : poll_reply),
     pid r = 0xE003 -> 2 <= reply_length r ->
     let raw := u16be (reply_data r) in
     let soh := div (of_int raw) f100 in
     raw = 0xFFFF \/ raw = 0x1800 \/ leb soh f50 = true \/ gtb soh f150 = true ->
     step s (Reply r) = s /\ emitted s (Reply r) = []) /\
  (let soh := div (of_int 0x1800) f100 in
   leb soh f50 = false /\ gtb soh f150 = false /\
   to_fraction soh = Some (16106127, 2 ^ 18) /\
   Z.abs (100 * 16106127 - 6144 * 2 ^ 18) * 2 <= 100).
Proof.
  split.
  - intros s r Hpid Hlen raw soh Hbad.
    assert (Hb : soh_bogus raw soh = true).
    { unfold soh_bogus.
      destruct Hbad as [-> | [-> | [H | H]]]; try reflexivity;
        rewrite H; repeat rewrite orb_true_r; reflexivity. }
    unfold_handlers. rewrite Hpid. simpl.
    apply Z.leb_le in Hlen. rewrite Hlen.
    fold raw. fold soh. rewrite Hb. auto.
  - vm_compute. repeat split; congruence.
Qed.

Lemma C3_soh_rejected_witness :
  step fresh (Reply soh_placeholder) = fresh /\
  emitted fresh (Reply soh_placeholder) = [].
Proof.
  apply (proj1 C3_soh_rejected fresh soh_placeholder).
  - reflexivity.
  - vm_compute. congruence.
  - right. left. vm_compute. reflexivity.
Defined.

(** C7.  For a cabin/HVAC temperature reply of at least two bytes: raw 458
    is dropped while the readiness metric is false, and published as
    [458 / 10.0f] (the binary32 nearest to 45.8) while it is true; raw
    0x0200, raw 0xFFFF and any value below -40 or above 125 are dropped
    whatever the readiness.  A dropped reply writes nothing. *)
Theorem C7_hvac_temperature (s : Vehicle) (r : poll_reply) :
  pid r = 0xE010 -> 2 <= reply_length r ->
  let raw := u16be (reply_data r) in
  let t := div (of_int raw) f10 in
  (raw = 458 -> ms_v_env_on (StdMetrics s) = false ->
     step s (Reply r) = s /\ emitted s (Reply r) = []) /\
  (raw = 458 -> ms_v_env_on (StdMetrics s) = true ->
   m_hvac_temp_c s <> None ->
     emitted s (Reply r) = [W_hvac_temp t] /\
     m_hvac_temp_c (step s (Reply r)) = Some t /\
     StdMetrics (step s (Reply r)) = StdMetrics s /\
     to_fraction t = Some (12006195, 2 ^ 18) /\
     Z.abs (10 * 12006195 - 458 * 2 ^ 18) * 2 <= 10) /\
  (raw = 0x0200 \/ raw = 0xFFFF \/ ltb t fm40 = true \/ gtb t f125 = true ->
     step s (Reply r) = s /\ emitted s (Reply r) = []).
Proof.
  intros Hpid Hlen raw t.
  apply Z.leb_le in Hlen.
  split; [|split].
  - intros Hraw Hoff.
    unfold_handlers. rewrite Hpid. simpl. rewrite Hlen.
    fold raw.
    destruct (non_null (m_hvac_temp_c s)); simpl; [|auto].
    rewrite Hraw, Hoff. simpl. auto.
  - intros Hraw Hon Hnn.
    unfold_handlers. rewrite Hpid. simpl. rewrite Hlen.
    fold raw. subst t. rewrite Hraw.
    destruct_vehicle s. simpl in *.
    match goal with H : ?o <> None |- _ => destruct o as [old|]; [|congruence] end.
    subst. simpl. repeat split; try reflexivity. vm_compute. congruence.
  - intros Hbad.
    assert (Hb : hvac_bogus raw t = true).
    { unfold hvac_bogus.
      destruct Hbad as [-> | [-> | [H | H]]]; try reflexivity;
        rewrite H; repeat rewrite orb_true_r; reflexivity. }
    unfold_handlers. rewrite Hpid. simpl. rewrite Hlen.
    fold raw. fold t.
    destruct (non_null (m_hvac_temp_c s)); simpl; [|auto].
    rewrite Hb.
    destruct (negb (ms_v_env_on (StdMetrics s)) && (raw =? 458)); auto.
Qed.

Lemma C7_hvac_temperature_witness :
  (step fresh (Reply hvac_458) = fresh /\ emitted fresh (Reply hvac_458) = []) /\
  emitted (step fresh (Reply ready_on)) (Reply hvac_458) =
    [W_hvac_temp (S754_finite false 12006195 (-18))].
Proof.
  split.
  - assert (Hlen : 2 <= reply_length hvac_458) by (vm_compute; congruence).
    destruct (C7_hvac_temperature fresh hvac_458 eq_refl Hlen) as (Hoff & _).
    apply Hoff; vm_compute; reflexivity.
  - assert (Hlen : 2 <= reply_length hvac_458) by (vm_compute; congruence).
    destruct (C7_hvac_temperature (step fresh (Reply ready_on)) hvac_458
                eq_refl Hlen) as (_ & Hon & _).
    destruct Hon as (Hw & _).
    + reflexivity.
    + reflexivity.
    + vm_compute. congruence.
    + rewrite Hw. vm_compute. reflexivity.
Defined.

(** C8.  For a 0x281 frame of the vehicle bus with byte 1 = [b]: if [b] is
    0xA9 or 0xA8 and differs from the last lock byte seen, the locked
    metric is written ([true] for 0xA9, [false] for 0xA8) and [b] becomes
    the last lock byte seen; in every other case (a repeated lock byte, or
    any other value) nothing is written and the state, with its de-bounce
    byte and its locked metric, is unchanged.  The test reads the
    de-bounce byte only, never the published metric. *)
Theorem C8_lock_state (s : Vehicle) (f : CAN_frame_t) :
  origin f = m_can1 -> MsgID f = 0x281 ->
  let b := u8val (b1 (data f)) in
  ((b = 0xA9 \/ b = 0xA8) -> b <> last_state s ->
     emitted s (Frame f) = [W_env_locked (b =? 0xA9)] /\
     ms_v_env_locked (StdMetrics (step s (Frame f))) = (b =? 0xA9) /\
     last_state (step s (Frame f)) = b) /\
  (b = last_state s \/ (b <> 0xA9 /\ b <> 0xA8) ->
     step s (Frame f) = s /\ emitted s (Frame f) = []).
Proof.
  intros Ho Hid b.
  split.
  - intros Hval Hnew.
    unfold_handlers. rewrite Ho, Hid. simpl.
    change (at_ (u8 (data f)) 1) with b.
    apply Z.eqb_neq in Hnew. rewrite Hnew.
    assert (Hv : (b =? 0xA9) || (b =? 0xA8) = true)
      by (destruct Hval as [-> | ->]; reflexivity).
    rewrite Hv. destruct_vehicle s. simpl. auto.
  - intros Hskip.
    unfold_handlers. rewrite Ho, Hid. simpl.
    change (at_ (u8 (data f)) 1) with b.
    destruct Hskip as [Hsame | [H9 H8]].
    + rewrite Hsame, Z.eqb_refl. auto.
    + apply Z.eqb_neq in H9, H8. rewrite H9, H8, andb_false_r. auto.
Qed.

Lemma C8_lock_state_witness :
  emitted fresh (Frame lock_A9) = [W_env_locked true] /\
  emitted (step fresh (Frame lock_A9)) (Frame lock_A9) = [] /\
  emitted (step fresh (Frame lock_A9)) (Frame lock_A8) = [W_env_locked false].
Proof.
  split; [|split].
  - apply (C8_lock_state fresh lock_A9 eq_refl eq_refl).
    + left. reflexivity.
    + vm_compute. congruence.
  - apply (C8_lock_state (step fresh (Frame lock_A9)) lock_A9 eq_refl eq_refl).
    left. reflexivity.
  - apply (C8_lock_state (step fresh (Frame lock_A9)) lock_A8 eq_refl eq_refl).
    + right. reflexivity.
    + vm_compute. congruence.
Defined.

(** C10.  A VIN reply of at least one byte overwrites the VIN metric with
    the reply bytes taken verbatim as text, whatever the metric held and
    whatever the bytes are; that is its single write and everything else
    in the state is as before.  An empty VIN reply changes nothing. *)
Theorem C10_vin_verbatim (s : Vehicle) (r : poll_reply) :
  pid r = 0xF190 ->
  (1 <= reply_length r ->
     emitted s (Reply r) = [W_vin (string_of_list_byte (reply_data r))] /\
     list_byte_of_string (ms_v_vin (StdMetrics (step s (Reply r)))) = reply_data r /\
     step s (Reply r) =
       mk_vehicle
         (mk_metrics
            (ms_v_env_handbrake (StdMetrics s)) (ms_v_env_locked (StdMetrics s))
            (ms_v_env_on (StdMetrics s)) (ms_v_charge_pilot (StdMetrics s))
            (ms_v_charge_voltage (StdMetrics s)) (ms_v_charge_current (StdMetrics s))
            (ms_v_charge_power (StdMetrics s)) (ms_v_pos_odometer (StdMetrics s))
            (ms_v_bat_soc (StdMetrics s)) (ms_v_bat_soh (StdMetrics s))
            (ms_v_bat_capacity (StdMetrics s)) (ms_v_env_temp (StdMetrics s))
            (string_of_list_byte (reply_data r)))
         (m_hvac_temp_c s) (m_pack_capacity_kwh s) (m_ac_voltage s)
         (m_ac_current s) (m_poll_state s) (last_state s)) /\
  (reply_length r = 0 -> step s (Reply r) = s /\ emitted s (Reply r) = []).
Proof.
  intros Hpid. split.
  - intros Hlen. apply Z.leb_le in Hlen.
    unfold_handlers. rewrite Hpid. simpl. rewrite Hlen.
    destruct_vehicle s. simpl.
    repeat split. apply list_byte_of_string_of_list_byte.
  - intros Hlen.
    unfold_handlers. rewrite Hpid. simpl. rewrite Hlen. simpl. auto.
Qed.

Lemma C10_vin_verbatim_witness :
  ms_v_vin (StdMetrics (step fresh (Reply vin_reply))) = "LSFAM11A0PA000001"%string /\
  step fresh (Reply (mk_reply 0xF190 [])) = fresh.
Proof.
  split.
  - assert (Hlen : 1 <= reply_length vin_reply) by (vm_compute; congruence).
    destruct (C10_vin_verbatim fresh vin_reply eq_refl) as (Hfull & _).
    destruct (Hfull Hlen) as (_ & _ & Hs).
    rewrite Hs. vm_compute. reflexivity.
  - apply (C10_vin_verbatim fresh (mk_reply 0xF190 []) eq_refl). reflexivity.
Defined.


(** ** The dispatch relation *)

Arguments decode_0x362 : simpl never.
Arguments decode_0x373 : simpl never.
Arguments voltage_sane : simpl never.
Arguments current_sane : simpl never.
Arguments soh_bogus : simpl never.
Arguments hvac_bogus : simpl never.
Arguments ambient_bogus : simpl never.
Arguments at_ : simpl never.
Arguments ready_of : simpl never.
Arguments raw_0x540 : simpl never.
Arguments odometer_sane : simpl never.

Lemma andThen_skip_l (h : Handler) (s : Vehicle) : andThen skip h s = h s.
Proof.
  unfold andThen, skip. destruct (h s) as [s2 w2]. reflexivity.
Qed.

Lemma handle_handled (s : Vehicle) (e : Event) : handled s e (handle e s).
Proof.
  destruct e as [f | r]; unfold handle.
  - unfold IncomingFrameCan1, OvmsVehicleOBDII_IncomingFrameCan1.
    rewrite andThen_skip_l.
    destruct (Nat.eqb (origin f) m_can1) eqn:Ho; simpl;
      [|apply H_other_bus; exact Ho].
    destruct (MsgID f =? 0x266) eqn:H1;
      [apply H_0x266; [exact Ho | apply Z.eqb_eq; exact H1]|].
    destruct (MsgID f =? 0x281) eqn:H2;
      [apply H_0x281; [exact Ho | apply Z.eqb_eq; exact H2]|].
    destruct (MsgID f =? 0x362) eqn:H3;
      [apply H_0x362; [exact Ho | apply Z.eqb_eq; exact H3]|].
    destruct (MsgID f =? 0x373) eqn:H4;
      [apply H_0x373; [exact Ho | apply Z.eqb_eq; exact H4]|].
    destruct (MsgID f =? 0x510) eqn:H5;
      [apply H_0x510; [exact Ho | apply Z.eqb_eq; exact H5]|].
    destruct (MsgID f =? 0x540) eqn:H6;
      [apply H_0x540; [exact Ho | apply Z.eqb_eq; exact H6]|].
    apply H_unknown_frame; assumption.
  - unfold IncomingPollReply. simpl.
    destruct (pid r =? 0xF190) eqn:H1;
      [apply H_0xF190; apply Z.eqb_eq; exact H1|].
    destruct (pid r =? 0xE002) eqn:H2;
      [apply H_0xE002; apply Z.eqb_eq; exact H2|].
    destruct (pid r =? 0xE003) eqn:H3;
      [apply H_0xE003; apply Z.eqb_eq; exact H3|].
    destruct (pid r =? 0xE004) eqn:H4;
      [apply H_0xE004; apply Z.eqb_eq; exact H4|].
    destruct (pid r =? 0xE009) eqn:H5;
      [apply H_0xE009; apply Z.eqb_eq; exact H5|].
    destruct (pid r =? 0xE010) eqn:H6;
      [apply H_0xE010; apply Z.eqb_eq; exact H6|].
    destruct (pid r =? 0xE025) eqn:H7;
      [apply H_0xE025; apply Z.eqb_eq; exact H7|].
    apply H_unknown_pid; assumption.
Qed.

Ltac unfold_cases :=
  unfold case_0x266, case_0x281, case_0x362, case_0x373, case_0x510,
    case_0x540, case_0xF190, case_0xE002, case_0xE003, case_0xE004,
    case_0xE009, case_0xE010, case_0xE025,
    andThen, reading, modify, SetValue, PollSetState, skip,
    state_of, writes_of.

Ltac use_case_facts :=
  repeat match goal with
         | H : @eq bool _ _ |- _ => rewrite H
         | H : @eq Z _ _ |- _ => rewrite H
         end.

Ltac break_option :=
  match goal with
  | |- context [match ?c with Some _ => _ | None => _ end] =>
      destruct c eqn:?; cbn
  end.

Ltac crush_handler :=
  repeat (break_if || break_option); cbn;
  try reflexivity; try congruence; auto.

(** Case analysis on the decoder that handles [e] in state [s]. *)
Ltac by_dispatch s e :=
  unfold step, emitted;
  destruct (handle_handled s e);
  unfold_cases; use_case_facts; cbn;
  destruct_vehicle s; cbn; crush_handler.

(** ** How one delivery moves the caches, the pointers and the poll state *)

Lemma step_m_ac_voltage (s : Vehicle) (e : Event) :
  m_ac_voltage (step s e) =
  match accepted_voltage e with Some v => v | None => m_ac_voltage s end.
Proof.
  unfold accepted_voltage, on_vehicle_bus. by_dispatch s e.
Qed.

Lemma step_m_ac_current (s : Vehicle) (e : Event) :
  m_ac_current (step s e) =
  match accepted_current e with Some v => v | None => m_ac_current s end.
Proof.
  unfold accepted_current, on_vehicle_bus. by_dispatch s e.
Qed.

Lemma step_m_pack_capacity_kwh (s : Vehicle) (e : Event) :
  m_pack_capacity_kwh (step s e) = m_pack_capacity_kwh s.
Proof.
  by_dispatch s e.
Qed.

Lemma step_m_hvac_temp_c (s : Vehicle) (e : Event) :
  non_null (m_hvac_temp_c (step s e)) = non_null (m_hvac_temp_c s).
Proof.
  by_dispatch s e.
  all: match goal with
       | |- context [option_map _ ?o] => destruct o; cbn in *; congruence
       end.
Qed.

Lemma step_m_poll_state_other (s : Vehicle) (e : Event) :
  accepted_ready e = false -> m_poll_state (step s e) = m_poll_state s.
Proof.
  unfold accepted_ready. by_dispatch s e.
Qed.

Lemma step_env_on_other (s : Vehicle) (e : Event) :
  accepted_ready e = false ->
  ms_v_env_on (StdMetrics (step s e)) = ms_v_env_on (StdMetrics s).
Proof.
  unfold accepted_ready. by_dispatch s e.
Qed.

Lemma step_ready (s : Vehicle) (r : poll_reply) :
  poll_inv s -> pid r = 0xE004 -> 2 <= reply_length r ->
  m_poll_state (step s (Reply r)) =
    spec_poll_transition (ready_of r) (m_poll_state s) /\
  ms_v_env_on (StdMetrics (step s (Reply r))) = ready_of r /\
  emitted s (Reply r) = [W_env_on (ready_of r)].
Proof.
  unfold poll_inv, spec_poll_transition, POLL_ON, POLL_OFF.
  intros Hinv Hpid Hlen. apply Z.leb_le in Hlen.
  unfold_handlers. rewrite Hpid. cbn. rewrite Hlen.
  destruct s as [[hb lk on pl cv cc cp od soc soh cap te vin] hv pc av ac ps ls].
  cbn in *. subst ps.
  destruct (ready_of r); destruct on; cbn; repeat split; reflexivity.
Qed.

Lemma step_poll_inv (s : Vehicle) (e : Event) :
  poll_inv s -> poll_inv (step s e).
Proof.
  destruct (accepted_ready e) eqn:Hr.
  - destruct e as [f | r]; [discriminate|].
    cbn in Hr. apply andb_true_iff in Hr. destruct Hr as [Hpid Hlen].
    apply Z.eqb_eq in Hpid. apply Z.leb_le in Hlen.
    intros Hinv. destruct (step_ready s r Hinv Hpid Hlen) as (Hps & Hon & _).
    unfold poll_inv in *. rewrite Hps, Hon, Hinv.
    unfold spec_poll_transition, POLL_ON, POLL_OFF.
    destruct (ready_of r); destruct (ms_v_env_on (StdMetrics s)); reflexivity.
  - unfold poll_inv. intros Hinv.
    rewrite (step_m_poll_state_other s e Hr), (step_env_on_other s e Hr).
    exact Hinv.
Qed.

Lemma step_power_writes (s : Vehicle) (e : Event) :
  power_writes (emitted s e) =
  if (non_null (accepted_voltage e) && gtb (m_ac_current s) f0_1)
     || (non_null (accepted_current e) && gtb (m_ac_voltage s) f10)
  then [charge_power_kw (step s e)] else [].
Proof.
  unfold accepted_voltage, accepted_current, on_vehicle_bus, charge_power_kw.
  by_dispatch s e.
Qed.

Lemma step_power_metric (s : Vehicle) (e : Event) :
  power_writes (emitted s e) <> [] ->
  ms_v_charge_power (StdMetrics (step s e)) = charge_power_kw (step s e).
Proof.
  unfold charge_power_kw. by_dispatch s e.
Qed.

Lemma step_capacity_writes (s : Vehicle) (e : Event) :
  capacity_writes (emitted s e) =
  match e with
  | Reply r =>
      if soh_accepted r && soh_changed s r then
        match m_pack_capacity_kwh s with
        | Some nominal => [mul nominal (div (soh_of r) f100)]
        | None => []
        end
      else []
  | Frame _ => []
  end.
Proof.
  unfold soh_accepted, soh_changed, soh_of. by_dispatch s e.
Qed.

Lemma step_capacity_metric (s : Vehicle) (e : Event) :
  ms_v_bat_capacity (StdMetrics (step s e)) =
  match capacity_writes (emitted s e) with
  | c :: _ => c
  | [] => ms_v_bat_capacity (StdMetrics s)
  end.
Proof.
  by_dispatch s e.
Qed.

(** ** Sequences of deliveries *)

Lemma run_snoc (s : Vehicle) (tr : list Event) (e : Event) :
  run s (tr ++ [e]) = step (run s tr) e.
Proof.
  unfold run. rewrite fold_left_app. reflexivity.
Qed.

Lemma last_sample_snoc (g : Event -> option float) (tr : list Event) (e : Event) :
  last_sample g (tr ++ [e]) =
  match g e with Some v => Some v | None => last_sample g tr end.
Proof.
  induction tr as [|a tr IH]; cbn.
  - destruct (g e); reflexivity.
  - rewrite IH. destruct (g e); [reflexivity|].
    destruct (last_sample g tr); reflexivity.
Qed.

Lemma run_m_ac_voltage (s : Vehicle) (tr : list Event) :
  m_ac_voltage (run s tr) =
  match last_sample accepted_voltage tr with
  | Some v => v
  | None => m_ac_voltage s
  end.
Proof.
  induction tr as [|e tr IH] using rev_ind; [reflexivity|].
  rewrite run_snoc, step_m_ac_voltage, last_sample_snoc.
  destruct (accepted_voltage e); [reflexivity | exact IH].
Qed.

Lemma run_m_ac_current (s : Vehicle) (tr : list Event) :
  m_ac_current (run s tr) =
  match last_sample accepted_current tr with
  | Some v => v
  | None => m_ac_current s
  end.
Proof.
  induction tr as [|e tr IH] using rev_ind; [reflexivity|].
  rewrite run_snoc, step_m_ac_current, last_sample_snoc.
  destruct (accepted_current e); [reflexivity | exact IH].
Qed.

Lemma run_m_pack_capacity_kwh (s : Vehicle) (tr : list Event) :
  m_pack_capacity_kwh (run s tr) = m_pack_capacity_kwh s.
Proof.
  induction tr as [|e tr IH] using rev_ind; [reflexivity|].
  rewrite run_snoc, step_m_pack_capacity_kwh. exact IH.
Qed.

Lemma run_poll_inv (s : Vehicle) (tr : list Event) :
  poll_inv s -> poll_inv (run s tr).
Proof.
  intros Hinv. induction tr as [|e tr IH] using rev_ind; [exact Hinv|].
  rewrite run_snoc. apply step_poll_inv. exact IH.
Qed.

(** ** The constructed object *)

Lemma constructed_caches (m : StandardMetrics) :
  m_ac_voltage (OvmsVehicleMaxt90 m) = zero /\
  m_ac_current (OvmsVehicleMaxt90 m) = zero.
Proof.
  destruct m. split; reflexivity.
Qed.

Lemma constructed_pack_capacity (m : StandardMetrics) :
  m_pack_capacity_kwh (OvmsVehicleMaxt90 m) = Some f88_5.
Proof.
  destruct m. reflexivity.
Qed.

Lemma constructed_poll_inv (m : StandardMetrics) :
  ms_v_env_on m = false -> poll_inv (OvmsVehicleMaxt90 m).
Proof.
  destruct m. cbn. intros ->. reflexivity.
Qed.

(** ** Order facts on binary32 values *)

Lemma voltage_sane_positive (v : float) :
  voltage_sane v = true -> gtb v zero = true.
Proof.
  unfold voltage_sane. intros H. apply andb_true_iff in H. destruct H as [H _].
  unfold geb, gtb, f150, zero in *.
  destruct v as [sg | sg | | sg mant ex]; try destruct sg;
    try reflexivity; discriminate H.
Qed.

Lemma current_sane_positive (i : float) :
  current_sane i = true -> gtb i zero = true.
Proof.
  unfold current_sane. intros H. apply andb_true_iff in H. destruct H as [H _].
  unfold geb, gtb, f0_1, zero in *.
  destruct i as [sg | sg | | sg mant ex]; try destruct sg;
    try reflexivity; discriminate H.
Qed.

Lemma accepted_voltage_sane (e : Event) (v : float) :
  accepted_voltage e = Some v -> voltage_sane v = true.
Proof.
  destruct e as [f | r]; cbn; [|discriminate].
  destruct (on_vehicle_bus 0x362 f); cbn; [|discriminate].
  destruct (voltage_sane (decode_0x362 f)) eqn:Hs; [|discriminate].
  intros [= <-]. exact Hs.
Qed.

Lemma accepted_current_sane (e : Event) (i : float) :
  accepted_current e = Some i -> current_sane i = true.
Proof.
  destruct e as [f | r]; cbn; [|discriminate].
  destruct (on_vehicle_bus 0x373 f); cbn; [|discriminate].
  destruct (current_sane (decode_0x373 f)) eqn:Hs; [|discriminate].
  intros [= <-]. exact Hs.
Qed.

Lemma accepted_exclusive (e : Event) (v i : float) :
  accepted_voltage e = Some v -> accepted_current e = Some i -> False.
Proof.
  destruct e as [f | r]; cbn; [|discriminate].
  unfold on_vehicle_bus.
  destruct (Z.eqb_spec (MsgID f) 0x362) as [Hv | Hv];
    destruct (Z.eqb_spec (MsgID f) 0x373) as [Hi | Hi];
    rewrite ?andb_false_r; cbn; try discriminate.
  rewrite Hv in Hi. discriminate Hi.
Qed.

Lemma accepted_voltage_above_threshold (e : Event) (v : float) :
  accepted_voltage e = Some v -> gtb v f10 = true.
Proof.
  intros H. apply voltage_sane_above_threshold, (accepted_voltage_sane e), H.
Qed.

Lemma accepted_current_above_threshold (e : Event) (i : float) :
  accepted_current e = Some i -> gtb i f0_1 = true.
Proof.
  destruct e as [f | r]; cbn; [|discriminate].
  destruct (on_vehicle_bus 0x373 f); cbn; [|discriminate].
  destruct (current_sane (decode_0x373 f)) eqn:Hs; [|discriminate].
  intros [= <-]. apply current_sane_above_threshold, Hs.
Qed.

Lemma last_sample_all (g : Event -> option float) (P : float -> Prop) :
  (forall e x, g e = Some x -> P x) ->
  forall tr x, last_sample g tr = Some x -> P x.
Proof.
  intros Hg tr. induction tr as [|e tr IH]; cbn; intros x Hx.
  - discriminate Hx.
  - destruct (last_sample g tr) as [y|].
    + apply IH. exact Hx.
    + apply (Hg e). exact Hx.
Qed.

(** ** Properties of whole runs *)

(** C9.  Whatever is delivered, the cached AC voltage after a delivery is
    the decoded voltage if the delivery is an accepted 0x362 frame and the
    previous cache otherwise; likewise the cached AC current and accepted
    0x373 frames.  Both caches are 0 at construction, every accepted sample
    is strictly positive, so no delivery puts 0 back; after any sequence
    each cache is the most recent accepted sample of its own signal, or the
    construction default if there was none. *)
Theorem C9_ac_caches :
  (forall (s : Vehicle) (e : Event),
     m_ac_voltage (step s e) =
       match accepted_voltage e with Some v => v | None => m_ac_voltage s end /\
     m_ac_current (step s e) =
       match accepted_current e with Some i => i | None => m_ac_current s end) /\
  (forall (e : Event) (x : float),
     accepted_voltage e = Some x \/ accepted_current e = Some x ->
     gtb x zero = true /\ eqb x zero = false) /\
  (forall (m : StandardMetrics) (tr : list Event),
     m_ac_voltage (OvmsVehicleMaxt90 m) = zero /\
     m_ac_current (OvmsVehicleMaxt90 m) = zero /\
     m_ac_voltage (after m tr) = or_default (last_sample accepted_voltage tr) /\
     m_ac_current (after m tr) = or_default (last_sample accepted_current tr)).
Proof.
  split; [|split].
  - intros s e. split; [apply step_m_ac_voltage | apply step_m_ac_current].
  - intros e x Hx.
    assert (Hpos : gtb x zero = true).
    { destruct Hx as [Hv | Hi].
      - apply voltage_sane_positive, (accepted_voltage_sane e), Hv.
      - apply current_sane_positive, (accepted_current_sane e), Hi. }
    split; [exact Hpos|].
    unfold gtb, eqb, zero in *.
    destruct x as [sg | sg | | sg mant ex]; try destruct sg;
      try reflexivity; discriminate Hpos.
  - intros m tr. destruct (constructed_caches m) as [Hv Hi].
    unfold after, or_default.
    rewrite run_m_ac_voltage, run_m_ac_current, Hv, Hi.
    repeat split.
Qed.

Lemma C9_ac_caches_witness :
  gtb (S754_finite false 14811136 (-16)) zero = true /\
  m_ac_voltage (after unset_metrics [Frame volt_226; Frame volt_1; Reply ready_on]) =
    S754_finite false 14811136 (-16).
Proof.
  destruct C9_ac_caches as (_ & Hpos & Hrun).
  split.
  - apply (Hpos (Frame volt_226)). left. vm_compute. reflexivity.
  - destruct (Hrun unset_metrics [Frame volt_226; Frame volt_1; Reply ready_on])
      as (_ & _ & Hv & _).
    rewrite Hv. vm_compute. reflexivity.
Defined.

(** C1.  After any sequence of deliveries since construction, one more
    delivery writes the charge-power metric exactly when it is an accepted
    AC-voltage frame and the cached current exceeds 0.1 A, or an accepted
    AC-current frame and the cached voltage exceeds 10 V.  It then writes
    it once, with (cached voltage * cached current) / 1000 computed from
    the caches as they are after that delivery, and by then the sequence
    contains an accepted voltage sample and an accepted current sample,
    whose most recent values are the two caches.  Conversely, once the
    sequence contains both, in either order, every accepted sample of
    either signal writes the power. *)
Theorem C1_derived_charge_power
  (m : StandardMetrics) (tr : list Event) (e : Event) :
  let s := after m tr in
  let s' := step s e in
  let by_voltage := non_null (accepted_voltage e) && gtb (m_ac_current s) f0_1 in
  let by_current := non_null (accepted_current e) && gtb (m_ac_voltage s) f10 in
  let p_kw := div (mul (m_ac_voltage s') (m_ac_current s')) f1000 in
  power_writes (emitted s e) = (if by_voltage || by_current then [p_kw] else []) /\
  (by_voltage || by_current = true ->
     ms_v_charge_power (StdMetrics s') = p_kw /\
     last_sample accepted_voltage (tr ++ [e]) = Some (m_ac_voltage s') /\
     last_sample accepted_current (tr ++ [e]) = Some (m_ac_current s')) /\
  (non_null (accepted_voltage e) || non_null (accepted_current e) = true ->
   last_sample accepted_voltage (tr ++ [e]) <> None ->
   last_sample accepted_current (tr ++ [e]) <> None ->
     by_voltage || by_current = true).
Proof.
  intros s s' by_voltage by_current p_kw.
  pose proof (step_power_writes s e) as Hw.
  fold by_voltage by_current in Hw.
  change (charge_power_kw (step s e)) with p_kw in Hw.
  split; [exact Hw|].
  destruct (constructed_caches m) as [Hv0 Hi0].
  assert (Hv : m_ac_voltage s =
               match last_sample accepted_voltage tr with
               | Some v => v | None => zero end).
  { subst s. unfold after. rewrite run_m_ac_voltage, Hv0. reflexivity. }
  assert (Hi : m_ac_current s =
               match last_sample accepted_current tr with
               | Some v => v | None => zero end).
  { subst s. unfold after. rewrite run_m_ac_current, Hi0. reflexivity. }
  split.
  - intros Hcond.
    split.
    { apply (step_power_metric s e). rewrite Hw, Hcond. discriminate. }
    subst s'. rewrite step_m_ac_voltage, step_m_ac_current.
    rewrite !last_sample_snoc.
    subst by_voltage by_current.
    destruct (accepted_voltage e) as [v|] eqn:Hev;
      destruct (accepted_current e) as [i|] eqn:Hei; cbn in Hcond.
    + split; reflexivity.
    + split; [reflexivity|].
      rewrite orb_false_r in Hcond. rewrite Hi in *.
      destruct (last_sample accepted_current tr); [reflexivity|].
      discriminate Hcond.
    + split; [|reflexivity].
      rewrite Hv in *.
      destruct (last_sample accepted_voltage tr); [reflexivity|].
      discriminate Hcond.
    + discriminate Hcond.
  - rewrite !last_sample_snoc. subst by_voltage by_current.
    destruct (accepted_voltage e) as [v|] eqn:Hev;
      destruct (accepted_current e) as [i|] eqn:Hei; cbn; intros Hfresh Hsv Hsi.
    + destruct (accepted_exclusive e v i Hev Hei).
    + rewrite orb_false_r, Hi.
      destruct (last_sample accepted_current tr) as [i0|] eqn:Hli; [|congruence].
      apply (last_sample_all accepted_current _
               accepted_current_above_threshold tr i0 Hli).
    + rewrite Hv.
      destruct (last_sample accepted_voltage tr) as [v0|] eqn:Hlv; [|congruence].
      apply (last_sample_all accepted_voltage _
               accepted_voltage_above_threshold tr v0 Hlv).
    + discriminate Hfresh.
Qed.

Lemma C1_derived_charge_power_witness :
  power_writes (emitted (after unset_metrics [Frame volt_226]) (Frame amp_14)) =
    [S754_finite false 13802534 (-22)] /\
  ms_v_charge_power
    (StdMetrics (step (after unset_metrics [Frame volt_226]) (Frame amp_14))) =
    S754_finite false 13802534 (-22) /\
  power_writes (emitted (after unset_metrics [Frame amp_14]) (Frame volt_226)) =
    [S754_finite false 13802534 (-22)] /\
  power_writes (emitted (after unset_metrics []) (Frame volt_226)) = [].
Proof.
  destruct (C1_derived_charge_power unset_metrics [Frame volt_226] (Frame amp_14))
    as (Hw & Hafter & _).
  destruct (C1_derived_charge_power unset_metrics [Frame amp_14] (Frame volt_226))
    as (Hw' & _).
  destruct (C1_derived_charge_power unset_metrics [] (Frame volt_226))
    as (Hw0 & _).
  destruct Hafter as (Hm & _).
  { vm_compute. reflexivity. }
  split; [rewrite Hw; vm_compute; reflexivity|].
  split; [rewrite Hm; vm_compute; reflexivity|].
  split; [rewrite Hw'; vm_compute; reflexivity|].
  rewrite Hw0. vm_compute. reflexivity.
Defined.

(** C4.  After any sequence of deliveries the nominal capacity is 88.5.
    A delivery writes the usable-capacity metric only if it is an SOH
    reply that passes the filter and whose value differs from the
    published SOH; it then writes SOH and then 88.5 * (SOH / 100), which is
    the value the capacity metric holds afterwards, and without such a
    write the capacity metric keeps its value.  An SOH reply that
    passes the filter but equals the published SOH writes nothing and
    leaves the state as it is. *)
Theorem C4_usable_capacity
  (m : StandardMetrics) (tr : list Event) (e : Event) :
  let s := after m tr in
  m_pack_capacity_kwh s = Some f88_5 /\
  capacity_writes (emitted s e) =
    match e with
    | Reply r =>
        if soh_accepted r && soh_changed s r
        then [mul f88_5 (div (soh_of r) f100)] else []
    | Frame _ => []
    end /\
  ms_v_bat_capacity (StdMetrics (step s e)) =
    match capacity_writes (emitted s e) with
    | c :: _ => c
    | [] => ms_v_bat_capacity (StdMetrics s)
    end /\
  (forall r, e = Reply r -> soh_accepted r = true ->
     (soh_changed s r = true ->
        emitted s e =
          [W_bat_soh (soh_of r); W_bat_capacity (mul f88_5 (div (soh_of r) f100))] /\
        ms_v_bat_soh (StdMetrics (step s e)) = soh_of r /\
        ms_v_bat_capacity (StdMetrics (step s e)) =
          mul f88_5 (div (soh_of r) f100)) /\
     (soh_changed s r = false -> step s e = s /\ emitted s e = [])).
Proof.
  intros s.
  assert (Hpack : m_pack_capacity_kwh s = Some f88_5).
  { subst s. unfold after.
    rewrite run_m_pack_capacity_kwh. apply constructed_pack_capacity. }
  split; [exact Hpack|]. split; [|split].
  - rewrite step_capacity_writes. destruct e as [f | r]; [reflexivity|].
    rewrite Hpack. reflexivity.
  - apply step_capacity_metric.
  - intros r -> Hacc.
    unfold soh_accepted in Hacc.
    apply andb_true_iff in Hacc. destruct Hacc as [Hacc Hok].
    apply andb_true_iff in Hacc. destruct Hacc as [Hpid Hlen].
    apply Z.eqb_eq in Hpid. apply negb_true_iff in Hok.
    unfold soh_changed, soh_of in *.
    generalize dependent s. intros s Hpack.
    unfold_handlers. rewrite Hpid. cbn. rewrite Hlen, Hok.
    destruct_vehicle s. cbn in *. subst.
    split; intros Hch; rewrite Hch; cbn; repeat split.
Qed.

Lemma C4_usable_capacity_witness :
  emitted (after unset_metrics [Reply ready_on]) (Reply soh_95) =
    [W_bat_soh (S754_finite false 12451840 (-17));
     W_bat_capacity (S754_finite false 11019878 (-17))] /\
  emitted (after unset_metrics [Reply soh_95]) (Reply soh_95) = [].
Proof.
  destruct (C4_usable_capacity unset_metrics [Reply ready_on] (Reply soh_95))
    as (_ & _ & _ & H1).
  destruct (C4_usable_capacity unset_metrics [Reply soh_95] (Reply soh_95))
    as (_ & _ & _ & H2).
  destruct (H1 soh_95 eq_refl) as (Hch & _); [vm_compute; reflexivity|].
  destruct (H2 soh_95 eq_refl) as (_ & Hsame); [vm_compute; reflexivity|].
  split.
  - destruct Hch as (Hw & _); [vm_compute; reflexivity|].
    rewrite Hw. vm_compute. reflexivity.
  - apply Hsame. vm_compute. reflexivity.
Defined.



(** The READY decoder compares the computed readiness with the readiness
    metric, not with the poll state; the two agree on every state reached
    from a store whose readiness metric is false.  Constructed over a store
    whose readiness metric is already true, the object is in state OFF and
    a READY reply with readiness true is no change of the metric: the poll
    state stays OFF. *)
Lemma ready_test_reads_the_metric (m : StandardMetrics) :
  ms_v_env_on m = true ->
  ready_of ready_on = true /\
  m_poll_state (OvmsVehicleMaxt90 m) = POLL_OFF /\
  m_poll_state (step (OvmsVehicleMaxt90 m) (Reply ready_on)) = POLL_OFF.
Proof.
  destruct m. cbn. intros ->. repeat split.
Qed.

(** ** Frames shorter than the bytes their decoder reads *)

(** The handbrake decoder tests the data length code: a 0x266 frame
    announcing fewer than three bytes is ignored. *)
Lemma handbrake_short_frame_ignored (s : Vehicle) (f : CAN_frame_t) :
  origin f = m_can1 -> MsgID f = 0x266 -> DLC f < 3 ->
  step s (Frame f) = s /\ emitted s (Frame f) = [].
Proof.
  intros Ho Hid Hdlc. apply Z.ltb_lt in Hdlc.
  unfold_handlers. rewrite Ho, Hid. cbn. rewrite Hdlc. auto.
Qed.

(** C5.  The odometer and AC-voltage decoders do not test the data length
    code.  A 0x540 frame announcing five bytes (bytes 4..6 are needed) is
    decoded from the payload buffer and writes the odometer, 14.4 km for
    byte 4 = 0x90; a 0x362 frame announcing one byte (bytes 0..1 are
    needed) writes the charge voltage and the cache, 225.28 V for byte
    0 = 0x58. *)
Theorem C5_short_frames_are_decoded :
  DLC odo_short < 7 /\
  emitted fresh (Frame odo_short) =
    [W_pos_odometer (S754_finite false 15099494 (-20))] /\
  ms_v_pos_odometer (StdMetrics fresh) = zero /\
  ms_v_pos_odometer (StdMetrics (step fresh (Frame odo_short))) =
    S754_finite false 15099494 (-20) /\
  DLC volt_short < 2 /\
  emitted fresh (Frame volt_short) =
    [W_charge_voltage (S754_finite false 14763950 (-16))] /\
  m_ac_voltage (step fresh (Frame volt_short)) =
    S754_finite false 14763950 (-16).
Proof.
  vm_compute. repeat split.
Qed.

(* ================================================================== *)
(** * Further properties of the decoders *)

(** ** Exhaustive checks of the 16-bit and 8-bit decodes *)

Lemma raw16_check_all : all_from (Z.to_nat 65536) 0 raw16_check = true.
Proof. vm_cast_no_check (eq_refl true). Qed.

Lemma soc_check_all : all_from (Z.to_nat 256) 0 soc_check = true.
Proof. vm_cast_no_check (eq_refl true). Qed.

Lemma raw16_readings (p : list byte) :
  let raw := u16be p in
  let v100 := div (of_int raw) f100 in
  let v10 := div (of_int raw) f10 in
  let v164 := div (of_int raw) f164 in
  current_sane v164 = (17 <=? raw) && (raw <=? 6560) /\
  leb v100 f50 = (raw <=? 5000) /\
  gtb v100 f150 = (15000 <? raw) /\
  eqb v100 v100 = true /\
  ltb v10 fm40 = false /\
  ltb v10 fm50 = false /\
  gtb v10 f125 = (1250 <? raw) /\
  gtb v10 f80 = (800 <? raw) /\
  eqb v10 v10 = true.
Proof.
  intros raw v100 v10 v164.
  assert (Hc : raw16_check raw = true).
  { apply (all_from_spec _ _ _ raw16_check_all).
    pose proof (u16be_range p). subst raw. rewrite Z2Nat.id; lia. }
  unfold raw16_check in Hc. fold v100 v10 v164 in Hc.
  repeat (apply andb_true_iff in Hc; destruct Hc as [Hc ?]).
  repeat match goal with
         | H : Bool.eqb _ _ = true |- _ => apply eqb_prop in H
         | H : negb _ = true |- _ => apply negb_true_iff in H
         end.
  repeat split; assumption.
Qed.

Lemma soc_readings (b : byte) :
  let soc := of_int (u8val b) in
  gtb soc (of_int 0) && leb soc (of_int 100) =
    (1 <=? u8val b) && (u8val b <=? 100) /\
  exists num den, to_fraction soc = Some (num, den) /\ num = u8val b * den.
Proof.
  intros soc.
  assert (Hc : soc_check (u8val b) = true).
  { apply (all_from_spec _ _ _ soc_check_all).
    pose proof (u8val_range b). rewrite Z2Nat.id; lia. }
  unfold soc_check in Hc. fold soc in Hc.
  apply andb_true_iff in Hc. destruct Hc as [H1 H2].
  apply eqb_prop in H1. split; [exact H1|].
  destruct (to_fraction soc) as [[num den]|]; [|discriminate].
  exists num, den. split; [reflexivity|]. apply Z.eqb_eq. exact H2.
Qed.

Lemma capacity_check_all : all_from (Z.to_nat 65536) 0 capacity_check = true.
Proof. vm_cast_no_check (eq_refl true). Qed.

(** ** The byte-order helpers *)

Lemma u8val_inj (a b : byte) : u8val a = u8val b -> a = b.
Proof.
  unfold u8val. intros H. apply N2Z.inj in H.
  assert (Ha : Byte.of_N (Byte.to_N a) = Some a) by apply Byte.of_to_N.
  assert (Hb : Byte.of_N (Byte.to_N b) = Some b) by apply Byte.of_to_N.
  rewrite H in Ha. congruence.
Qed.

Lemma lor_shiftl_disjoint (lo hi k : Z) :
  0 <= k -> 0 <= lo < 2 ^ k -> 0 <= hi ->
  Z.lor lo (Z.shiftl hi k) = lo + hi * 2 ^ k.
Proof.
  intros Hk Hlo Hhi.
  assert (Hdisj : Z.land lo (Z.shiftl hi k) = 0).
  { apply Z.bits_inj'. intros n Hn.
    rewrite Z.land_spec, Z.bits_0.
    destruct (Z_lt_le_dec n k) as [Hlt | Hge].
    - rewrite Z.shiftl_spec_low by lia. apply andb_false_r.
    - replace (Z.testbit lo n) with false; [reflexivity|].
      symmetry. destruct (Z.eq_dec lo 0) as [-> | Hnz]; [apply Z.bits_0|].
      apply Z.bits_above_log2; [lia|].
      apply Z.lt_le_trans with k; [|lia].
      apply Z.log2_lt_pow2; lia. }
  rewrite <- Z.lxor_lor by exact Hdisj.
  rewrite <- Z.add_nocarry_lxor by exact Hdisj.
  rewrite Z.shiftl_mul_pow2 by lia. reflexivity.
Qed.

(** X1.  [u16be] reads the first two bytes of the buffer, most significant
    first: its value is [256 * p[0] + p[1]], it fits 16 bits, the two bytes
    are recovered as quotient and remainder by 256, and two buffers give
    the same value exactly when their first two bytes agree. *)
Theorem u16be_round_trip (a b : byte) (rest : list byte) :
  let raw := u16be (a :: b :: rest) in
  raw = 256 * u8val a + u8val b /\
  0 <= raw < 65536 /\
  raw / 256 = u8val a /\
  raw mod 256 = u8val b /\
  (forall (c d : byte) (rest' : list byte),
     u16be (c :: d :: rest') = raw <-> c = a /\ d = b).
Proof.
  intros raw.
  pose proof (u8val_range a) as Ha. pose proof (u8val_range b) as Hb.
  assert (Hraw : raw = 256 * u8val a + u8val b).
  { subst raw. rewrite u16be_value. reflexivity. }
  split; [exact Hraw|]. split; [lia|].
  split; [rewrite Hraw; symmetry; apply (Z.div_unique _ _ _ (u8val b)); lia|].
  split; [rewrite Hraw; symmetry; apply (Z.mod_unique _ _ (u8val a)); lia|].
  intros c d rest'. rewrite Hraw, u16be_value.
  change (at_ (c :: d :: rest') 0) with (u8val c).
  change (at_ (c :: d :: rest') 1) with (u8val d).
  pose proof (u8val_range c) as Hc. pose proof (u8val_range d) as Hd.
  split.
  - intros H. split; apply u8val_inj; lia.
  - intros [-> ->]. reflexivity.
Qed.

Lemma u16be_round_trip_witness :
  u16be [x58; x48] = 22600 /\ (u16be [x58; x49] = u16be [x58; x48] -> False).
Proof.
  destruct (u16be_round_trip x58 x48 []) as (Hv & _ & _ & _ & Hinj).
  split.
  - rewrite Hv. reflexivity.
  - intros H. apply (Hinj x58 x49 []) in H. destruct H as [_ H]. discriminate H.
Defined.

(** X2.  [u24le] reads three bytes, least significant first: its value is
    [p[0] + 256 * p[1] + 65536 * p[2]] and fits 24 bits.  The odometer
    decoder computes the same value, inline, from payload bytes 4, 5 and
    6; it is 0 exactly when the three bytes are 0. *)
Theorem u24le_value (a b c : byte) (rest : list byte) :
  let raw := u24le (a :: b :: c :: rest) in
  raw = u8val a + 256 * u8val b + 65536 * u8val c /\
  0 <= raw < 2 ^ 24 /\
  (forall f : CAN_frame_t,
     b4 (data f) = a -> b5 (data f) = b -> b6 (data f) = c ->
     raw_0x540 f = raw) /\
  (raw = 0 <-> a = x00 /\ b = x00 /\ c = x00).
Proof.
  intros raw.
  pose proof (u8val_range a) as Ha. pose proof (u8val_range b) as Hb.
  pose proof (u8val_range c) as Hc.
  assert (Hexpr : (Z.lor (Z.lor (u8val a) (Z.shiftl (u8val b) 8))
                         (Z.shiftl (u8val c) 16)) mod 2 ^ 32 =
                  u8val a + 256 * u8val b + 65536 * u8val c).
  { rewrite (lor_shiftl_disjoint (u8val a) (u8val b) 8) by lia.
    rewrite (lor_shiftl_disjoint _ (u8val c) 16) by lia.
    rewrite Z.mod_small by lia. lia. }
  assert (Hraw : raw = u8val a + 256 * u8val b + 65536 * u8val c).
  { subst raw. exact Hexpr. }
  split; [exact Hraw|]. split; [lia|]. split.
  - intros f H4 H5 H6. rewrite Hraw, <- Hexpr.
    unfold raw_0x540, u8, at_. cbn. rewrite H4, H5, H6. reflexivity.
  - rewrite Hraw. split.
    + intros H. repeat split; apply u8val_inj; change (u8val x00) with 0; lia.
    + intros (-> & -> & ->). reflexivity.
Qed.

Lemma u24le_value_witness :
  u24le [x90; xf0; x02] = 192656 /\ raw_0x540 odo_192656 = 192656.
Proof.
  destruct (u24le_value x90 xf0 x02 []) as (Hv & _ & Hodo & _).
  assert (H : u24le [x90; xf0; x02] = 192656) by (rewrite Hv; reflexivity).
  split; [exact H|].
  rewrite (Hodo odo_192656 eq_refl eq_refl eq_refl). exact H.
Defined.

(** ** Bit tests on the decoded words *)

Lemma land_1_odd (x : Z) : negb (Z.land x 0x01 =? 0) = Z.odd x.
Proof.
  change 0x01 with (Z.ones 1). rewrite Z.land_ones by lia.
  change (2 ^ 1) with 2. rewrite Zmod_odd. destruct (Z.odd x); reflexivity.
Qed.

Lemma u16be_low_byte (a b : byte) (rest : list byte) :
  u16be (a :: b :: rest) mod 2 ^ 8 = u8val b.
Proof.
  rewrite u16be_value.
  change (at_ (a :: b :: rest) 0) with (u8val a).
  change (at_ (a :: b :: rest) 1) with (u8val b).
  pose proof (u8val_range b).
  symmetry. apply (Z.mod_unique _ _ (u8val a)); lia.
Qed.

Lemma land_low_mask (x m : Z) :
  0 <= m < 2 ^ 8 -> Z.land x m = Z.land (x mod 2 ^ 8) m.
Proof.
  intros Hm. apply Z.bits_inj'. intros n Hn.
  rewrite !Z.land_spec.
  destruct (Z_lt_le_dec n 8) as [Hlt | Hge].
  - rewrite Z.mod_pow2_bits_low by lia. reflexivity.
  - replace (Z.testbit m n) with false; [rewrite !andb_false_r; reflexivity|].
    symmetry. destruct (Z.eq_dec m 0) as [-> | Hnz]; [apply Z.bits_0|].
    apply Z.bits_above_log2; [lia|].
    apply Z.lt_le_trans with 8; [|lia].
    apply Z.log2_lt_pow2; lia.
Qed.

Lemma byte_ready_bits (b : byte) :
  negb (Z.land (u8val b) 0x000C =? 0) =
  Z.testbit (u8val b) 2 || Z.testbit (u8val b) 3.
Proof.
  destruct b; vm_compute; reflexivity.
Qed.

(** ** The remaining CAN decoders *)

(** X3.  A 0x266 frame of the vehicle bus announcing at least three bytes
    writes the handbrake metric on every delivery, changed or not, with
    bit 0 of byte 2 (the byte is odd); it is the frame's single effect.
    With fewer than three bytes announced the frame changes nothing. *)
Theorem handbrake_decoder (s : Vehicle) (f : CAN_frame_t) :
  origin f = m_can1 -> MsgID f = 0x266 ->
  let on := Z.odd (u8val (b2 (data f))) in
  (3 <= DLC f ->
     emitted s (Frame f) = [W_env_handbrake on] /\
     ms_v_env_handbrake (StdMetrics (step s (Frame f))) = on /\
     step s (Frame f) = store (W_env_handbrake on) s) /\
  (DLC f < 3 -> step s (Frame f) = s /\ emitted s (Frame f) = []).
Proof.
  intros Ho Hid on. split.
  - intros Hdlc. assert (Hlt : (DLC f <? 3) = false) by (apply Z.ltb_ge; lia).
    unfold_handlers. rewrite Ho, Hid. cbn. rewrite Hlt.
    change (at_ (u8 (data f)) 2) with (u8val (b2 (data f))).
    rewrite land_1_odd. fold on.
    destruct_vehicle s. cbn. repeat split.
  - intros Hdlc. apply Z.ltb_lt in Hdlc.
    unfold_handlers. rewrite Ho, Hid. cbn. rewrite Hdlc. split; reflexivity.
Qed.

Lemma handbrake_decoder_witness :
  emitted fresh (Frame brake_on) = [W_env_handbrake true] /\
  emitted (step fresh (Frame brake_on)) (Frame brake_on) = [W_env_handbrake true].
Proof.
  destruct (handbrake_decoder fresh brake_on eq_refl eq_refl) as (H1 & _).
  destruct (handbrake_decoder (step fresh (Frame brake_on)) brake_on
              eq_refl eq_refl) as (H2 & _).
  split.
  - apply H1. vm_compute. congruence.
  - apply H2. vm_compute. congruence.
Defined.

(** X5.  A 0x373 frame of the vehicle bus decodes bytes 0-1, most
    significant first, to [raw / 164.0f]; the range test
    [0.1 <= i <= 40] holds exactly for [17 <= raw <= 6560].  When it
    passes, the cache and the charge-current metric take the value and
    the power is recomputed if the cached voltage exceeds 10 V; when it
    fails, nothing is written and the state is unchanged. *)
Theorem ac_current_gate (s : Vehicle) (f : CAN_frame_t) :
  origin f = m_can1 -> MsgID f = 0x373 ->
  let raw := 256 * u8val (b0 (data f)) + u8val (b1 (data f)) in
  let i := div (of_int raw) f164 in
  decode_0x373 f = i /\
  (current_sane i = true <-> 17 <= raw <= 6560) /\
  (current_sane i = true ->
     m_ac_current (step s (Frame f)) = i /\
     m_ac_voltage (step s (Frame f)) = m_ac_voltage s /\
     ms_v_charge_current (StdMetrics (step s (Frame f))) = i /\
     emitted s (Frame f) =
       W_charge_current i ::
       (if gtb (m_ac_voltage s) f10
        then [W_charge_power (div (mul (m_ac_voltage s) i) f1000)]
        else [])) /\
  (current_sane i = false ->
     step s (Frame f) = s /\ emitted s (Frame f) = []).
Proof.
  intros Ho Hid raw i.
  assert (Hu : u16be (u8 (data f)) = raw).
  { rewrite u16be_value. reflexivity. }
  assert (Hdec : decode_0x373 f = i).
  { unfold decode_0x373. cbv zeta. rewrite Hu. reflexivity. }
  destruct (raw16_readings (u8 (data f))) as (Hrange & _).
  rewrite Hu in Hrange. fold i in Hrange.
  split; [exact Hdec|]. split; [|split].
  - rewrite Hrange, andb_true_iff, Z.leb_le, Z.leb_le. tauto.
  - intros Hacc. unfold_handlers. rewrite Ho, Hid, Hdec. cbn. rewrite Hacc.
    destruct_vehicle s. cbn. break_if; repeat split.
  - intros Hrej. unfold_handlers. rewrite Ho, Hid, Hdec. cbn.
    rewrite Hrej. split; reflexivity.
Qed.

Lemma ac_current_gate_witness :
  m_ac_current (step fresh (Frame amp_14)) = S754_finite false 15268290 (-20) /\
  emitted fresh (Frame amp_14) =
    [W_charge_current (S754_finite false 15268290 (-20))].
Proof.
  destruct (ac_current_gate fresh amp_14 eq_refl eq_refl) as (_ & _ & Hacc & _).
  destruct Hacc as (Hc & _ & _ & Hw); [vm_compute; reflexivity|].
  split; [rewrite Hc | rewrite Hw]; vm_compute; reflexivity.
Defined.

(** X11.  A 0x540 frame of the vehicle bus decodes [raw / 10.0f] km from
    bytes 4..6.  It writes the odometer metric exactly when the value
    passes [0 < km < 1000000] and differs from the published odometer;
    this is its single effect.  A raw value of 0 never passes, and after
    a frame that passes the published odometer equals the decoded value,
    so delivering the frame again writes nothing. *)
Theorem odometer_decoder (s : Vehicle) (f : CAN_frame_t) :
  origin f = m_can1 -> MsgID f = 0x540 ->
  let km := km_of f in
  let publish := odometer_sane km && neb (ms_v_pos_odometer (StdMetrics s)) km in
  emitted s (Frame f) = (if publish then [W_pos_odometer km] else []) /\
  step s (Frame f) = (if publish then store (W_pos_odometer km) s else s) /\
  (raw_0x540 f = 0 -> odometer_sane km = false) /\
  (odometer_sane km = true ->
     eqb (ms_v_pos_odometer (StdMetrics (step s (Frame f)))) km = true /\
     emitted (step s (Frame f)) (Frame f) = []).
Proof.
  intros Ho Hid km publish.
  assert (Hself : odometer_sane km = true -> eqb km km = true).
  { unfold odometer_sane, gtb, ltb, eqb, SFltb, SFeqb. intros H.
    apply andb_true_iff in H. destruct H as [H _].
    destruct km as [sg | sg | | sg mant ex]; try destruct sg;
      try discriminate H; try reflexivity.
    cbn. rewrite Z.compare_refl, Pos.compare_cont_refl. reflexivity. }
  assert (Hem : forall x, emitted x (Frame f) =
            if odometer_sane km && neb (ms_v_pos_odometer (StdMetrics x)) km
            then [W_pos_odometer km] else []).
  { intros x. unfold_handlers. rewrite Ho, Hid. cbn. fold (km_of f). fold km.
    destruct (odometer_sane km); cbn; [|reflexivity].
    destruct (neb (ms_v_pos_odometer (StdMetrics x)) km); reflexivity. }
  assert (Hst : step s (Frame f) =
            if publish then store (W_pos_odometer km) s else s).
  { subst publish. unfold_handlers. rewrite Ho, Hid. cbn. fold (km_of f). fold km.
    destruct (odometer_sane km); cbn; [|reflexivity].
    destruct (neb (ms_v_pos_odometer (StdMetrics s)) km); reflexivity. }
  split; [apply Hem|]. split; [exact Hst|]. split.
  - intros Hz. subst km. unfold km_of. rewrite Hz. vm_compute. reflexivity.
  - intros Hsane.
    assert (Heq : eqb (ms_v_pos_odometer (StdMetrics (step s (Frame f)))) km = true).
    { rewrite Hst. subst publish. rewrite Hsane. cbn.
      destruct (neb (ms_v_pos_odometer (StdMetrics s)) km) eqn:Hne.
      - destruct_vehicle s. cbn. apply Hself, Hsane.
      - unfold neb in Hne. apply negb_false_iff in Hne. exact Hne. }
    split; [exact Heq|].
    rewrite Hem, Hsane. unfold neb. unfold eqb in Heq. rewrite Heq. reflexivity.
Qed.

Lemma odometer_decoder_witness :
  emitted fresh (Frame odo_192656) =
    [W_pos_odometer (S754_finite false 9863987 (-9))] /\
  emitted (step fresh (Frame odo_192656)) (Frame odo_192656) = [].
Proof.
  destruct (odometer_decoder fresh odo_192656 eq_refl eq_refl)
    as (Hw & _ & _ & Hagain).
  split.
  - rewrite Hw. vm_compute. reflexivity.
  - apply Hagain. vm_compute. reflexivity.
Defined.

(** X12.  Deliveries the dispatch does not decode change nothing and
    write nothing: a frame of another bus, a frame whose identifier is
    none of 0x266, 0x281, 0x362, 0x373 and 0x540 (the gear candidate
    0x510 included, whatever its length and payload), and a poll reply
    whose PID is not in the poll list. *)
Theorem ignored_deliveries (s : Vehicle) :
  (forall f : CAN_frame_t,
     origin f <> m_can1 \/
     ~ In (MsgID f) [0x266; 0x281; 0x362; 0x373; 0x540] ->
     step s (Frame f) = s /\ emitted s (Frame f) = []) /\
  (forall r : poll_reply,
     ~ In (pid r) (map poll_pid maxt90_polls) ->
     step s (Reply r) = s /\ emitted s (Reply r) = []).
Proof.
  split.
  - intros f [Ho | Hid].
    + apply Nat.eqb_neq in Ho. unfold_handlers. rewrite Ho. cbn.
      split; reflexivity.
    + unfold_handlers. cbn in Hid.
      destruct (Nat.eqb (origin f) m_can1); cbn; [|split; reflexivity].
      repeat match goal with
             | |- context [MsgID f =? ?c] =>
                 destruct (Z.eqb_spec (MsgID f) c) as [He | He];
                 [exfalso; apply Hid; rewrite He; cbn; tauto | clear He]
             end.
      destruct (MsgID f =? 1296); cbn; [|split; reflexivity].
      destruct (DLC f <? 4); split; reflexivity.
  - intros r Hpid. unfold_handlers. cbn in Hpid.
    repeat match goal with
           | |- context [pid r =? ?c] =>
               destruct (Z.eqb_spec (pid r) c) as [He | He];
               [exfalso; apply Hpid; rewrite He; cbn; tauto | clear He]
           end.
    split; reflexivity.
Qed.

Lemma ignored_deliveries_witness :
  step fresh (Frame gear_frame) = fresh /\
  step fresh (Reply (mk_reply 0xE005 [x01; x02])) = fresh.
Proof.
  destruct (ignored_deliveries fresh) as (Hf & Hr).
  split.
  - apply Hf. right. vm_compute. intuition discriminate.
  - apply Hr. vm_compute. intuition discriminate.
Defined.

(** ** The remaining poll-reply decoders *)

Lemma reply_length_cons (p : Z) (b : byte) (rest : list byte) :
  1 <= reply_length (mk_reply p (b :: rest)).
Proof.
  unfold reply_length. cbn [reply_data List.length]. lia.
Qed.

Lemma reply_length_cons2 (p : Z) (a b : byte) (rest : list byte) :
  2 <= reply_length (mk_reply p (a :: b :: rest)).
Proof.
  unfold reply_length. cbn [reply_data List.length]. lia.
Qed.

Lemma positive_self_equal (x : float) : gtb x (of_int 0) = true -> eqb x x = true.
Proof.
  unfold gtb, eqb, SFltb, SFeqb. intros H.
  destruct x as [sg | sg | | sg mant ex]; try destruct sg;
    try discriminate H; try reflexivity.
  cbn. rewrite Z.compare_refl, Pos.compare_cont_refl. reflexivity.
Qed.

(** X4.  A 0xE002 reply takes the SOC from its first byte [b], converted
    exactly.  It writes the SOC metric exactly when [1 <= b <= 100] and
    the value differs from the published SOC, and this is its single
    effect; 0 and every byte above 100 are dropped, an empty reply is
    dropped, and the bytes after the first are never read. *)
Theorem soc_decoder (s : Vehicle) (b : byte) (rest : list byte) :
  let r := mk_reply 0xE002 (b :: rest) in
  let soc := of_int (u8val b) in
  let publish :=
    (1 <=? u8val b) && (u8val b <=? 100) && neb (ms_v_bat_soc (StdMetrics s)) soc in
  (exists num den, to_fraction soc = Some (num, den) /\ num = u8val b * den) /\
  emitted s (Reply r) = (if publish then [W_bat_soc soc] else []) /\
  step s (Reply r) = (if publish then store (W_bat_soc soc) s else s) /\
  (publish = true -> emitted (step s (Reply r)) (Reply r) = []) /\
  step s (Reply (mk_reply 0xE002 [])) = s /\
  emitted s (Reply (mk_reply 0xE002 [])) = [].
Proof.
  intros r soc publish.
  destruct (soc_readings b) as (Hrange & Hexact). fold soc in Hrange, Hexact.
  assert (Hpid : pid r = 0xE002) by reflexivity.
  assert (Hdata : reply_data r = b :: rest) by reflexivity.
  assert (Hlen : (1 <=? reply_length r) = true).
  { apply Z.leb_le. apply reply_length_cons. }
  clearbody r.
  assert (Hem : forall x, emitted x (Reply r) =
            if (1 <=? u8val b) && (u8val b <=? 100)
               && neb (ms_v_bat_soc (StdMetrics x)) soc
            then [W_bat_soc soc] else []).
  { intros x. unfold_handlers. rewrite Hpid. cbn. rewrite Hlen, Hdata.
    change (at_ (b :: rest) 0) with (u8val b). fold soc.
    rewrite Hrange.
    destruct ((1 <=? u8val b) && (u8val b <=? 100)); cbn; [|reflexivity].
    destruct (neb (ms_v_bat_soc (StdMetrics x)) soc); reflexivity. }
  assert (Hst : step s (Reply r) =
            if publish then store (W_bat_soc soc) s else s).
  { subst publish. unfold_handlers. rewrite Hpid. cbn. rewrite Hlen, Hdata.
    change (at_ (b :: rest) 0) with (u8val b). fold soc.
    rewrite Hrange.
    destruct ((1 <=? u8val b) && (u8val b <=? 100)); cbn; [|reflexivity].
    destruct (neb (ms_v_bat_soc (StdMetrics s)) soc); reflexivity. }
  split; [exact Hexact|]. split; [apply Hem|]. split; [exact Hst|].
  split; [|split; reflexivity].
  intros Hpub. rewrite Hem, Hst, Hpub.
  subst publish. apply andb_true_iff in Hpub. destruct Hpub as [Hin _].
  rewrite Hin. cbn.
  assert (Hself : eqb soc soc = true).
  { apply positive_self_equal. rewrite <- Hrange in Hin.
    apply andb_true_iff in Hin. tauto. }
  destruct_vehicle s. cbn. unfold neb. unfold eqb in Hself. rewrite Hself.
  reflexivity.
Qed.

Lemma soc_decoder_witness :
  emitted fresh (Reply soc_80) = [W_bat_soc (S754_finite false 10485760 (-17))] /\
  emitted (step fresh (Reply soc_80)) (Reply soc_80) = [].
Proof.
  destruct (soc_decoder fresh x50 []) as (_ & Hw & _ & Hagain & _).
  split.
  - change soc_80 with (mk_reply 0xE002 [x50]). rewrite Hw.
    vm_compute. reflexivity.
  - apply Hagain. vm_compute. reflexivity.
Defined.

(** X6.  A 0xE009 reply of at least two bytes writes the charge-pilot
    metric on every delivery, changed or not: true exactly when the second
    byte is 0, whatever the first byte.  It is the reply's single effect;
    a shorter reply changes nothing. *)
Theorem plug_decoder (s : Vehicle) :
  (forall (a b : byte) (rest : list byte),
     let r := mk_reply 0xE009 (a :: b :: rest) in
     let plug_present := u8val b =? 0 in
     emitted s (Reply r) = [W_charge_pilot plug_present] /\
     step s (Reply r) = store (W_charge_pilot plug_present) s) /\
  (forall r : poll_reply,
     pid r = 0xE009 -> reply_length r < 2 ->
     step s (Reply r) = s /\ emitted s (Reply r) = []).
Proof.
  split.
  - intros a b rest r plug_present.
    assert (Hlow : Z.land (u16be (a :: b :: rest)) 0x00FF = u8val b).
    { change 0x00FF with (Z.ones 8). rewrite Z.land_ones by lia.
      apply u16be_low_byte. }
    assert (Hpid : pid r = 0xE009) by reflexivity.
    assert (Hdata : reply_data r = a :: b :: rest) by reflexivity.
    assert (Hlen : (2 <=? reply_length r) = true).
    { apply Z.leb_le. apply reply_length_cons2. }
    clearbody r.
    unfold_handlers. rewrite Hpid. cbn. rewrite Hlen, Hdata, Hlow.
    fold plug_present.
    destruct_vehicle s. split; reflexivity.
  - intros r Hpid Hlen.
    assert (Hshort : (2 <=? reply_length r) = false) by (apply Z.leb_gt; lia).
    unfold_handlers. rewrite Hpid. cbn. rewrite Hshort. split; reflexivity.
Qed.

Lemma plug_decoder_witness :
  emitted fresh (Reply plug_in) = [W_charge_pilot true] /\
  step fresh (Reply (mk_reply 0xE009 [x00])) = fresh.
Proof.
  destruct (plug_decoder fresh) as (Hlong & Hshort).
  split.
  - destruct (Hlong x12 x00 []) as (Hw & _). exact Hw.
  - apply (Hshort (mk_reply 0xE009 [x00])); [reflexivity|].
    vm_compute. reflexivity.
Defined.

(** X7.  A 0xE004 reply of at least two bytes computes readiness from the
    second byte alone: it is true exactly when bit 2 or bit 3 of that byte
    is set.  In every state the readiness metric is written with it on
    every delivery, changed or not, and that is the only metric written;
    a shorter reply changes nothing. *)
Theorem ready_decoder (s : Vehicle) :
  (forall (a b : byte) (rest : list byte),
     let r := mk_reply 0xE004 (a :: b :: rest) in
     ready_of r = Z.testbit (u8val b) 2 || Z.testbit (u8val b) 3 /\
     emitted s (Reply r) = [W_env_on (ready_of r)] /\
     StdMetrics (step s (Reply r)) = store_std (W_env_on (ready_of r)) (StdMetrics s)) /\
  (forall r : poll_reply,
     pid r = 0xE004 -> reply_length r < 2 ->
     step s (Reply r) = s /\ emitted s (Reply r) = []).
Proof.
  split.
  - intros a b rest r.
    split.
    + unfold ready_of. cbn [reply_data r]. cbv zeta.
      rewrite (land_low_mask _ 0x000C) by lia.
      rewrite u16be_low_byte. apply byte_ready_bits.
    + assert (Hpid : pid r = 0xE004) by reflexivity.
      assert (Hlen : (2 <=? reply_length r) = true).
      { apply Z.leb_le. apply reply_length_cons2. }
      clearbody r.
      unfold_handlers. rewrite Hpid. cbn. rewrite Hlen.
      destruct_vehicle s. cbn.
      repeat break_if; split; reflexivity.
  - intros r Hpid Hlen.
    assert (Hshort : (2 <=? reply_length r) = false) by (apply Z.leb_gt; lia).
    unfold_handlers. rewrite Hpid. cbn. rewrite Hshort. split; reflexivity.
Qed.

Lemma ready_decoder_witness :
  ready_of ready_on = true /\
  emitted fresh (Reply ready_on) = [W_env_on true] /\
  step fresh (Reply (mk_reply 0xE004 [x04])) = fresh.
Proof.
  destruct (ready_decoder fresh) as (Hlong & Hshort).
  destruct (Hlong x00 x04 []) as (Hbits & Hw & _).
  change (mk_reply 0xE004 [x00; x04]) with ready_on in Hbits, Hw.
  split; [rewrite Hbits; vm_compute; reflexivity|].
  split; [rewrite Hw, Hbits; vm_compute; reflexivity|].
  apply (Hshort (mk_reply 0xE004 [x04])); [reflexivity|].
  vm_compute. reflexivity.
Defined.

(** X8.  A 0xE025 reply of at least two bytes writes the ambient
    temperature [raw / 10.0f] exactly when raw is at most 800, is not
    0x0200, and is not 75 while the readiness metric is false; that write
    is its single effect, made on every such delivery.  The lower bound
    test [ta < -50] never holds, and a shorter reply changes nothing. *)
Theorem ambient_decoder (s : Vehicle) (r : poll_reply) :
  pid r = 0xE025 ->
  let raw := u16be (reply_data r) in
  let ta := temp_of r in
  let accepted :=
    (raw <=? 800) && negb (raw =? 0x0200)
    && negb (negb (ms_v_env_on (StdMetrics s)) && (raw =? 75)) in
  ltb ta fm50 = false /\
  (2 <= reply_length r ->
     emitted s (Reply r) = (if accepted then [W_env_temp ta] else []) /\
     step s (Reply r) = (if accepted then store (W_env_temp ta) s else s)) /\
  (reply_length r < 2 -> step s (Reply r) = s /\ emitted s (Reply r) = []).
Proof.
  intros Hpid raw ta accepted.
  assert (Hlow : ltb ta fm50 = false)
    by apply (raw16_readings (reply_data r)).
  assert (Hhigh : gtb ta f80 = (800 <? raw))
    by apply (raw16_readings (reply_data r)).
  split; [exact Hlow|]. split.
  - intros Hlen. apply Z.leb_le in Hlen.
    assert (Hbogus : ambient_bogus raw ta = negb ((raw <=? 800) && negb (raw =? 0x0200))).
    { unfold ambient_bogus. rewrite Hlow, Hhigh, Z.leb_antisym.
      destruct (Z.eqb_spec raw 0xFFFF) as [H2 | H2];
        destruct (Z.ltb_spec 800 raw) as [H3 | H3];
        destruct (raw =? 0x0200); cbn; try reflexivity; lia. }
    subst accepted.
    unfold_handlers. rewrite Hpid. cbn. rewrite Hlen.
    change (u16be (reply_data r)) with raw.
    change (div (of_int raw) f10) with ta. rewrite Hbogus.
    destruct (negb (ms_v_env_on (StdMetrics s)) && (raw =? 75)); cbn;
      [rewrite andb_false_r; split; reflexivity|].
    rewrite andb_true_r.
    destruct ((raw <=? 800) && negb (raw =? 512)); cbn; split; reflexivity.
  - intros Hlen.
    assert (Hshort : (2 <=? reply_length r) = false) by (apply Z.leb_gt; lia).
    unfold_handlers. rewrite Hpid. cbn. rewrite Hshort. split; reflexivity.
Qed.

Lemma ambient_decoder_witness :
  emitted fresh (Reply ambient_75) = [] /\
  emitted (step fresh (Reply ready_on)) (Reply ambient_75) =
    [W_env_temp (S754_finite false 15728640 (-21))] /\
  emitted fresh (Reply ambient_215) =
    [W_env_temp (S754_finite false 11272192 (-19))].
Proof.
  assert (H2 : 2 <= reply_length ambient_75) by (vm_compute; congruence).
  assert (H2' : 2 <= reply_length ambient_215) by (vm_compute; congruence).
  destruct (ambient_decoder fresh ambient_75 eq_refl) as (_ & Hoff & _).
  destruct (ambient_decoder (step fresh (Reply ready_on)) ambient_75 eq_refl)
    as (_ & Hon & _).
  destruct (ambient_decoder fresh ambient_215 eq_refl) as (_ & H215 & _).
  destruct (Hoff H2) as (W1 & _). destruct (Hon H2) as (W2 & _).
  destruct (H215 H2') as (W3 & _).
  rewrite W1, W2, W3. vm_compute. repeat split.
Defined.

(** X9.  A 0xE010 reply of at least two bytes, with the HVAC metric
    created, writes the cabin temperature [raw / 10.0f] exactly when raw
    is at most 1250, is not 0x0200, and is not 458 while the readiness
    metric is false; the metric then holds the value and the standard
    metrics are untouched.  The lower bound test [t < -40] never holds.
    Without the metric, or with a shorter reply, nothing changes. *)
Theorem hvac_decoder (s : Vehicle) (r : poll_reply) :
  pid r = 0xE010 ->
  let raw := u16be (reply_data r) in
  let t := temp_of r in
  let accepted :=
    (raw <=? 1250) && negb (raw =? 0x0200)
    && negb (negb (ms_v_env_on (StdMetrics s)) && (raw =? 458)) in
  ltb t fm40 = false /\
  (2 <= reply_length r -> m_hvac_temp_c s <> None ->
     emitted s (Reply r) = (if accepted then [W_hvac_temp t] else []) /\
     step s (Reply r) = (if accepted then store (W_hvac_temp t) s else s) /\
     (accepted = true ->
        m_hvac_temp_c (step s (Reply r)) = Some t /\
        StdMetrics (step s (Reply r)) = StdMetrics s)) /\
  (reply_length r < 2 \/ m_hvac_temp_c s = None ->
     step s (Reply r) = s /\ emitted s (Reply r) = []).
Proof.
  intros Hpid raw t accepted.
  assert (Hlow : ltb t fm40 = false)
    by apply (raw16_readings (reply_data r)).
  assert (Hhigh : gtb t f125 = (1250 <? raw))
    by apply (raw16_readings (reply_data r)).
  split; [exact Hlow|]. split.
  - intros Hlen Hnn. apply Z.leb_le in Hlen.
    assert (Hbogus : hvac_bogus raw t = negb ((raw <=? 1250) && negb (raw =? 0x0200))).
    { unfold hvac_bogus. rewrite Hlow, Hhigh, Z.leb_antisym.
      destruct (Z.eqb_spec raw 0xFFFF) as [H2 | H2];
        destruct (Z.ltb_spec 1250 raw) as [H3 | H3];
        destruct (raw =? 0x0200); cbn; try reflexivity; lia. }
    subst accepted.
    unfold_handlers. rewrite Hpid. cbn. rewrite Hlen.
    change (u16be (reply_data r)) with raw.
    change (div (of_int raw) f10) with t.
    destruct_vehicle s. cbn in *.
    match goal with H : ?o <> None |- _ => destruct o as [old|]; [|congruence] end.
    cbn. rewrite Hbogus.
    match goal with
    | |- context [negb ?on && (raw =? 458)] =>
        destruct (negb on && (raw =? 458)); cbn
    end.
    + rewrite andb_false_r. repeat split; discriminate.
    + rewrite andb_true_r.
      destruct ((raw <=? 1250) && negb (raw =? 512)); cbn; repeat split;
        discriminate.
  - intros Hnone.
    unfold_handlers. rewrite Hpid. cbn.
    destruct Hnone as [Hlen | Hnull].
    + assert (Hshort : (2 <=? reply_length r) = false) by (apply Z.leb_gt; lia).
      rewrite Hshort. split; reflexivity.
    + rewrite Hnull. cbn. rewrite andb_false_r. split; reflexivity.
Qed.

Lemma hvac_decoder_witness :
  emitted fresh (Reply hvac_215) =
    [W_hvac_temp (S754_finite false 11272192 (-19))] /\
  m_hvac_temp_c (step fresh (Reply hvac_215)) =
    Some (S754_finite false 11272192 (-19)).
Proof.
  assert (H2 : 2 <= reply_length hvac_215) by (vm_compute; congruence).
  assert (Hnn : m_hvac_temp_c fresh <> None) by (vm_compute; congruence).
  destruct (hvac_decoder fresh hvac_215 eq_refl) as (_ & Hacc & _).
  destruct (Hacc H2 Hnn) as (Hw & _ & Hval).
  split.
  - rewrite Hw. vm_compute. reflexivity.
  - destruct Hval as (Hv & _); [vm_compute; reflexivity|].
    rewrite Hv. vm_compute. reflexivity.
Defined.

(** X10.  A 0xE003 reply of at least two bytes passes the SOH filter
    exactly when [5001 <= raw <= 15000] and raw is not 0x1800.  A reply
    that passes and differs from the published SOH writes the SOH, and
    then the usable capacity when the nominal-capacity metric exists;
    afterwards the published SOH equals the decoded value, so delivering
    the reply again writes nothing. *)
Theorem soh_decoder (s : Vehicle) (r : poll_reply) :
  pid r = 0xE003 -> 2 <= reply_length r ->
  let raw := u16be (reply_data r) in
  let soh := soh_of r in
  (soh_bogus raw soh = false <->
     5001 <= raw <= 15000 /\ raw <> 0x1800) /\
  (soh_bogus raw soh = false ->
     emitted s (Reply r) =
       (if neb (ms_v_bat_soh (StdMetrics s)) soh then
          W_bat_soh soh ::
          match m_pack_capacity_kwh s with
          | Some nominal => [W_bat_capacity (mul nominal (div soh f100))]
          | None => []
          end
        else []) /\
     eqb (ms_v_bat_soh (StdMetrics (step s (Reply r)))) soh = true /\
     emitted (step s (Reply r)) (Reply r) = []).
Proof.
  intros Hpid Hlen raw soh. apply Z.leb_le in Hlen.
  assert (Hlo : leb soh f50 = (raw <=? 5000))
    by apply (raw16_readings (reply_data r)).
  assert (Hhi : gtb soh f150 = (15000 <? raw))
    by apply (raw16_readings (reply_data r)).
  assert (Hself : eqb soh soh = true)
    by apply (raw16_readings (reply_data r)).
  assert (Hb : soh_bogus raw soh =
               (raw =? 0xFFFF) || (raw =? 0x1800) || (raw <=? 5000) || (15000 <? raw)).
  { unfold soh_bogus. rewrite Hlo, Hhi. reflexivity. }
  assert (Hem : forall x, soh_bogus raw soh = false ->
            emitted x (Reply r) =
              (if neb (ms_v_bat_soh (StdMetrics x)) soh then
                 W_bat_soh soh ::
                 match m_pack_capacity_kwh x with
                 | Some nominal => [W_bat_capacity (mul nominal (div soh f100))]
                 | None => []
                 end
               else [])).
  { intros x Hok. unfold_handlers. rewrite Hpid. cbn. rewrite Hlen.
    change (u16be (reply_data r)) with raw.
    change (div (of_int raw) f100) with soh. rewrite Hok.
    destruct_vehicle x. cbn.
    break_if; [|reflexivity]. break_option; reflexivity. }
  split.
  - rewrite Hb. rewrite !orb_false_iff.
    rewrite !Z.eqb_neq, Z.leb_gt, Z.ltb_ge. lia.
  - intros Hok. split; [apply Hem, Hok|].
    assert (Heq : eqb (ms_v_bat_soh (StdMetrics (step s (Reply r)))) soh = true).
    { unfold_handlers. rewrite Hpid. cbn. rewrite Hlen.
      change (u16be (reply_data r)) with raw.
    change (div (of_int raw) f100) with soh. rewrite Hok.
      destruct_vehicle s. cbn.
      break_if.
      - break_option; cbn; exact Hself.
      - cbn. match goal with H : neb _ _ = false |- _ =>
                 unfold neb in H; apply negb_false_iff in H; exact H end. }
    split; [exact Heq|].
    rewrite (Hem _ Hok). unfold neb. unfold eqb in Heq. rewrite Heq. reflexivity.
Qed.

Lemma soh_decoder_witness :
  soh_bogus (u16be (reply_data soh_95)) (soh_of soh_95) = false /\
  emitted (step fresh (Reply soh_95)) (Reply soh_95) = [].
Proof.
  assert (H2 : 2 <= reply_length soh_95) by (vm_compute; congruence).
  destruct (soh_decoder fresh soh_95 eq_refl H2) as (Hiff & Hacc).
  assert (Hok : soh_bogus (u16be (reply_data soh_95)) (soh_of soh_95) = false).
  { apply Hiff. vm_compute. split; [split|]; congruence. }
  split; [exact Hok|].
  destruct (Hacc Hok) as (_ & _ & Hagain). exact Hagain.
Defined.

(** ** Decoders against each other *)

Lemma untouched_by_refl (e : Event) (s : Vehicle) : untouched_by e s s.
Proof.
  unfold untouched_by, reply_owned_equal, frame_owned_equal.
  destruct (is_frame e); repeat split.
Qed.

Lemma step_untouched (s : Vehicle) (e : Event) : untouched_by e s (step s e).
Proof.
  unfold untouched_by, is_frame, reply_owned_equal, frame_owned_equal.
  by_dispatch s e; repeat split.
Qed.

(** X13.  CAN frames and poll replies write disjoint parts of the state.
    Whatever a frame carries, it leaves the readiness, pilot, SOC, SOH,
    capacity, ambient-temperature and VIN metrics, both custom metrics and
    the poll state as they are; whatever a reply carries, it leaves the
    handbrake, locked, charge voltage, current and power and odometer
    metrics, both AC caches and the lock de-bounce byte as they are.  The
    same holds for a whole sequence of frames, or of replies. *)
Theorem decoders_do_not_interfere (s : Vehicle) :
  (forall e : Event, untouched_by e s (step s e)) /\
  (forall tr : list Event,
     forallb is_frame tr = true -> reply_owned_equal s (run s tr)) /\
  (forall tr : list Event,
     forallb (fun e => negb (is_frame e)) tr = true ->
     frame_owned_equal s (run s tr)).
Proof.
  split; [intros e; apply step_untouched|]. split.
  - intros tr. induction tr as [|e tr IH] using rev_ind; intros Hall.
    + unfold reply_owned_equal. repeat split.
    + rewrite forallb_app in Hall. apply andb_true_iff in Hall.
      destruct Hall as [Htr He]. cbn in He. rewrite andb_true_r in He.
      rewrite run_snoc. specialize (IH Htr).
      pose proof (step_untouched (run s tr) e) as Hs.
      unfold untouched_by in Hs. rewrite He in Hs.
      unfold reply_owned_equal in *.
      repeat match goal with H : _ /\ _ |- _ => destruct H end.
      repeat split; congruence.
  - intros tr. induction tr as [|e tr IH] using rev_ind; intros Hall.
    + unfold frame_owned_equal. repeat split.
    + rewrite forallb_app in Hall. apply andb_true_iff in Hall.
      destruct Hall as [Htr He]. cbn in He. rewrite andb_true_r in He.
      apply negb_true_iff in He.
      rewrite run_snoc. specialize (IH Htr).
      pose proof (step_untouched (run s tr) e) as Hs.
      unfold untouched_by in Hs. rewrite He in Hs.
      unfold frame_owned_equal in *.
      repeat match goal with H : _ /\ _ |- _ => destruct H end.
      repeat split; congruence.
Qed.

Lemma decoders_do_not_interfere_witness :
  reply_owned_equal fresh (run fresh [Frame volt_226; Frame lock_A9]) /\
  frame_owned_equal fresh (run fresh [Reply ready_on; Reply soh_95]).
Proof.
  destruct (decoders_do_not_interfere fresh) as (_ & Hf & Hr).
  split; [apply Hf | apply Hr]; reflexivity.
Defined.

(** ** The write log *)





(** ** Delivering the same event again *)

Lemma handle_decoder (e : Event) :
  exists h, decoder_for e h /\ forall s, handle e s = h s.
Proof.
  destruct e as [f | r]; unfold handle.
  - unfold IncomingFrameCan1, OvmsVehicleOBDII_IncomingFrameCan1.
    destruct (Nat.eqb (origin f) m_can1) eqn:Ho; cbn [negb].
    2:{ exists skip. split; [apply D_other_bus, Ho|].
        intros s. apply andThen_skip_l. }
    destruct (MsgID f =? 0x266) eqn:H1.
    { exists (case_0x266 f). split; [apply D_0x266; [exact Ho | apply Z.eqb_eq, H1]|].
      intros s. apply andThen_skip_l. }
    destruct (MsgID f =? 0x281) eqn:H2.
    { exists (case_0x281 f). split; [apply D_0x281; [exact Ho | apply Z.eqb_eq, H2]|].
      intros s. apply andThen_skip_l. }
    destruct (MsgID f =? 0x362) eqn:H3.
    { exists (case_0x362 f). split; [apply D_0x362; [exact Ho | apply Z.eqb_eq, H3]|].
      intros s. apply andThen_skip_l. }
    destruct (MsgID f =? 0x373) eqn:H4.
    { exists (case_0x373 f). split; [apply D_0x373; [exact Ho | apply Z.eqb_eq, H4]|].
      intros s. apply andThen_skip_l. }
    destruct (MsgID f =? 0x510) eqn:H5.
    { exists (case_0x510 f). split; [apply D_0x510; [exact Ho | apply Z.eqb_eq, H5]|].
      intros s. apply andThen_skip_l. }
    destruct (MsgID f =? 0x540) eqn:H6.
    { exists (case_0x540 f). split; [apply D_0x540; [exact Ho | apply Z.eqb_eq, H6]|].
      intros s. apply andThen_skip_l. }
    exists skip. split; [apply D_unknown_frame; assumption|].
    intros s. apply andThen_skip_l.
  - unfold IncomingPollReply. cbn.
    destruct (pid r =? 0xF190) eqn:H1.
    { exists (case_0xF190 r). split; [apply D_0xF190, Z.eqb_eq, H1 | reflexivity]. }
    destruct (pid r =? 0xE002) eqn:H2.
    { exists (case_0xE002 r). split; [apply D_0xE002, Z.eqb_eq, H2 | reflexivity]. }
    destruct (pid r =? 0xE003) eqn:H3.
    { exists (case_0xE003 r). split; [apply D_0xE003, Z.eqb_eq, H3 | reflexivity]. }
    destruct (pid r =? 0xE004) eqn:H4.
    { exists (case_0xE004 r). split; [apply D_0xE004, Z.eqb_eq, H4 | reflexivity]. }
    destruct (pid r =? 0xE009) eqn:H5.
    { exists (case_0xE009 r). split; [apply D_0xE009, Z.eqb_eq, H5 | reflexivity]. }
    destruct (pid r =? 0xE010) eqn:H6.
    { exists (case_0xE010 r). split; [apply D_0xE010, Z.eqb_eq, H6 | reflexivity]. }
    destruct (pid r =? 0xE025) eqn:H7.
    { exists (case_0xE025 r). split; [apply D_0xE025, Z.eqb_eq, H7 | reflexivity]. }
    exists skip. split; [apply D_unknown_pid; assumption | reflexivity].
Qed.

Lemma odometer_sane_self (km : float) :
  odometer_sane km = true -> neb km km = false.
Proof.
  unfold odometer_sane. intros H. apply andb_true_iff in H. destruct H as [H _].
  unfold neb. apply negb_false_iff. apply (positive_self_equal km H).
Qed.

Lemma soc_sane_self (soc : float) :
  gtb soc (of_int 0) && leb soc (of_int 100) = true -> neb soc soc = false.
Proof.
  intros H. apply andb_true_iff in H. destruct H as [H _].
  unfold neb. apply negb_false_iff. apply (positive_self_equal soc H).
Qed.

Lemma soh_self (p : list byte) :
  neb (div (of_int (u16be p)) f100) (div (of_int (u16be p)) f100) = false.
Proof.
  unfold neb. apply negb_false_iff. apply (raw16_readings p).
Qed.

Ltac destruct_options :=
  repeat match goal with o : option float |- _ => destruct o end.

(** X15.  Every delivery is idempotent on the state: delivering the same
    frame or reply a second time, right after the first, leaves the state
    as the first delivery left it. *)
Theorem redelivery_is_idempotent (s : Vehicle) (e : Event) :
  step (step s e) e = step s e.
Proof.
  unfold step. destruct (handle_decoder e) as (h & Hd & Hh).
  rewrite !Hh. clear Hh.
  destruct Hd; unfold_cases; cbn;
    destruct s as [[hb lk on pl cv cc cp od soc soh cap te vin] hv pc av ac ps ls];
    cbn.
  - reflexivity.
  - crush_handler.
  - destruct (negb (at_ (u8 (data f)) 1 =? ls)
              && ((at_ (u8 (data f)) 1 =? 169) || (at_ (u8 (data f)) 1 =? 168)))
      eqn:Hnew; cbn.
    + rewrite Z.eqb_refl. reflexivity.
    + cbn. rewrite ?Hnew. reflexivity.
  - destruct (voltage_sane (decode_0x362 f)); cbn; [|reflexivity].
    destruct (gtb ac f0_1) eqn:Hc; unfold charge_power_kw; cbn;
      rewrite ?Hc; reflexivity.
  - destruct (current_sane (decode_0x373 f)); cbn; [|reflexivity].
    destruct (gtb av f10) eqn:Hc; unfold charge_power_kw; cbn;
      rewrite ?Hc; reflexivity.
  - crush_handler.
  - fold (km_of f).
    destruct (odometer_sane (km_of f)) eqn:Hs; cbn; [|reflexivity].
    destruct (neb od (km_of f)) eqn:Hne; cbn.
    + rewrite ?Hs. cbn. rewrite (odometer_sane_self _ Hs). reflexivity.
    + rewrite ?Hs. cbn. rewrite ?Hne. reflexivity.
  - reflexivity.
  - crush_handler.
  - destruct (1 <=? reply_length r); cbn; [|reflexivity].
    destruct (gtb (of_int (at_ (reply_data r) 0)) (of_int 0)
              && leb (of_int (at_ (reply_data r) 0)) (of_int 100)) eqn:Hs;
      cbn; [|reflexivity].
    destruct (neb soc (of_int (at_ (reply_data r) 0))) eqn:Hne; cbn.
    + rewrite ?Hs. cbn. rewrite (soc_sane_self _ Hs). reflexivity.
    + rewrite ?Hs. cbn. rewrite ?Hne. reflexivity.
  - destruct (2 <=? reply_length r); cbn; [|reflexivity].
    destruct (soh_bogus (u16be (reply_data r))
                (div (of_int (u16be (reply_data r))) f100)) eqn:Hb;
      cbn; [reflexivity|].
    destruct (neb soh (div (of_int (u16be (reply_data r))) f100)) eqn:Hne; cbn.
    + destruct pc; cbn; rewrite ?Hb; cbn; rewrite soh_self; reflexivity.
    + rewrite ?Hb. cbn. rewrite ?Hne. reflexivity.
  - destruct (2 <=? reply_length r); cbn; [|reflexivity].
    destruct (ready_of r); destruct on; cbn;
      destruct (ps =? 0) eqn:Hps; cbn; try rewrite Hps; reflexivity.
  - crush_handler.
  - destruct hv as [old|]; cbn; [|rewrite !andb_false_r; reflexivity].
    destruct (2 <=? reply_length r); cbn; [|reflexivity].
    destruct (negb on && (u16be (reply_data r) =? 458)) eqn:Hdef; cbn;
      [rewrite ?Hdef; reflexivity|].
    destruct (hvac_bogus (u16be (reply_data r))
                (div (of_int (u16be (reply_data r))) f10)) eqn:Hb; cbn;
      rewrite ?Hdef; cbn; rewrite ?Hb; reflexivity.
  - destruct (2 <=? reply_length r); cbn; [|reflexivity].
    destruct (negb on && (u16be (reply_data r) =? 75)) eqn:Hdef; cbn;
      [rewrite ?Hdef; reflexivity|].
    destruct (ambient_bogus (u16be (reply_data r))
                (div (of_int (u16be (reply_data r))) f10)) eqn:Hb; cbn;
      rewrite ?Hdef; cbn; rewrite ?Hb; reflexivity.
  - reflexivity.
Qed.

(** ** Lock state over whole runs *)









(** ** AC line metrics and caches over whole runs *)

Lemma step_charge_voltage (s : Vehicle) (e : Event) :
  ms_v_charge_voltage (StdMetrics (step s e)) =
  match accepted_voltage e with
  | Some v => v
  | None => ms_v_charge_voltage (StdMetrics s)
  end.
Proof.
  unfold accepted_voltage, on_vehicle_bus. by_dispatch s e.
Qed.

Lemma step_charge_current (s : Vehicle) (e : Event) :
  ms_v_charge_current (StdMetrics (step s e)) =
  match accepted_current e with
  | Some v => v
  | None => ms_v_charge_current (StdMetrics s)
  end.
Proof.
  unfold accepted_current, on_vehicle_bus. by_dispatch s e.
Qed.

(** X17.  The charge-voltage metric and the voltage cache are written
    together, and so are the charge-current metric and the current cache:
    after any sequence of deliveries that contains an accepted sample of a
    signal, the metric and the cache of that signal both hold the most
    recent accepted sample; without one the metric is as it was found. *)
Theorem ac_metrics_follow_caches (s : Vehicle) (tr : list Event) :
  (forall v, last_sample accepted_voltage tr = Some v ->
     ms_v_charge_voltage (StdMetrics (run s tr)) = v /\
     m_ac_voltage (run s tr) = v) /\
  (forall i, last_sample accepted_current tr = Some i ->
     ms_v_charge_current (StdMetrics (run s tr)) = i /\
     m_ac_current (run s tr) = i) /\
  (last_sample accepted_voltage tr = None ->
     ms_v_charge_voltage (StdMetrics (run s tr)) = ms_v_charge_voltage (StdMetrics s)) /\
  (last_sample accepted_current tr = None ->
     ms_v_charge_current (StdMetrics (run s tr)) = ms_v_charge_current (StdMetrics s)).
Proof.
  assert (Hv : ms_v_charge_voltage (StdMetrics (run s tr)) =
               match last_sample accepted_voltage tr with
               | Some v => v
               | None => ms_v_charge_voltage (StdMetrics s)
               end).
  { induction tr as [|e tr IH] using rev_ind; [reflexivity|].
    rewrite run_snoc, step_charge_voltage, last_sample_snoc.
    destruct (accepted_voltage e); [reflexivity | exact IH]. }
  assert (Hi : ms_v_charge_current (StdMetrics (run s tr)) =
               match last_sample accepted_current tr with
               | Some v => v
               | None => ms_v_charge_current (StdMetrics s)
               end).
  { clear Hv. induction tr as [|e tr IH] using rev_ind; [reflexivity|].
    rewrite run_snoc, step_charge_current, last_sample_snoc.
    destruct (accepted_current e); [reflexivity | exact IH]. }
  rewrite Hv, Hi, run_m_ac_voltage, run_m_ac_current.
  split; [|split; [|split]].
  - intros v ->. split; reflexivity.
  - intros i ->. split; reflexivity.
  - intros ->. reflexivity.
  - intros ->. reflexivity.
Qed.

Lemma ac_metrics_follow_caches_witness :
  ms_v_charge_voltage
    (StdMetrics (run fresh [Frame volt_226; Frame volt_1; Frame amp_14])) =
    S754_finite false 14811136 (-16) /\
  m_ac_voltage (run fresh [Frame volt_226; Frame volt_1; Frame amp_14]) =
    S754_finite false 14811136 (-16).
Proof.
  destruct (ac_metrics_follow_caches fresh
              [Frame volt_226; Frame volt_1; Frame amp_14]) as (Hv & _).
  apply Hv. vm_compute. reflexivity.
Defined.

(** ** Usable capacity over whole runs *)

Lemma capacity_in_bounds_soh (raw : Z) :
  0 <= raw < 65536 ->
  soh_bogus raw (div (of_int raw) f100) = false ->
  capacity_in_bounds (mul f88_5 (div (div (of_int raw) f100) f100)) = true.
Proof.
  intros Hr Hok.
  assert (Hc : capacity_check raw = true).
  { apply (all_from_spec _ _ _ capacity_check_all). rewrite Z2Nat.id; lia. }
  unfold capacity_check in Hc. rewrite Hok in Hc. exact Hc.
Qed.

Lemma step_capacity_inv (s : Vehicle) (e : Event) :
  capacity_inv s -> capacity_inv (step s e).
Proof.
  unfold capacity_inv. intros (Hpack & Hcap).
  split; [rewrite step_m_pack_capacity_kwh; exact Hpack|].
  revert Hpack Hcap. unfold step. destruct (handle_handled s e);
    unfold_cases; use_case_facts; cbn; intros Hpack Hcap;
    try (destruct_vehicle s; cbn in *; crush_handler; fail).
  (* the SOH decoder *)
  destruct (2 <=? reply_length r); cbn; [|exact Hcap].
  destruct (soh_bogus (u16be (reply_data r))
              (div (of_int (u16be (reply_data r))) f100)) eqn:Hb;
    cbn; [exact Hcap|].
  destruct (neb (ms_v_bat_soh (StdMetrics s))
              (div (of_int (u16be (reply_data r))) f100)); cbn; [|exact Hcap].
  destruct_vehicle s. cbn in *. subst. cbn.
  right. exists (u16be (reply_data r)).
  split; [apply u16be_range|]. split; [exact Hb|]. split; reflexivity.
Qed.

(** X18.  After any sequence of deliveries since construction the usable
    capacity is either the nominal 88.5 it was seeded with, or
    88.5 * (SOH / 100) of the SOH now published, which passed the filter.
    In both cases it lies between 44.25 and 132.75 kWh, half and one and a
    half times the nominal capacity. *)
Theorem usable_capacity_in_bounds (m : StandardMetrics) (tr : list Event) :
  let s := after m tr in
  let cap := ms_v_bat_capacity (StdMetrics s) in
  (cap = f88_5 \/ cap = mul f88_5 (div (ms_v_bat_soh (StdMetrics s)) f100)) /\
  leb f44_25 cap = true /\ leb cap f132_75 = true.
Proof.
  intros s cap.
  assert (Hinv : capacity_inv s).
  { subst s. unfold after.
    induction tr as [|e tr IH] using rev_ind.
    - destruct m. split; [reflexivity | left; reflexivity].
    - rewrite run_snoc. apply step_capacity_inv, IH. }
  destruct Hinv as (_ & [Hseed | (raw & Hr & Hok & Hsoh & Hcap)]).
  - split; [left; exact Hseed|]. subst cap. rewrite Hseed. split; reflexivity.
  - split; [right; exact Hcap|].
    pose proof (capacity_in_bounds_soh raw Hr Hok) as Hb.
    rewrite <- Hsoh, <- Hcap in Hb.
    unfold capacity_in_bounds in Hb. apply andb_true_iff in Hb. exact Hb.
Qed.

(** ** The poll list and the poll state *)

(** X19.  After any sequence of deliveries since construction over a
    store whose readiness metric was false, the PIDs the poll list enables
    in the current poll state are the READY PID 0xE004 alone while the
    readiness metric is false, and all seven PIDs of the list while it is
    true.  Every PID of the list is decoded: some reply with it writes a
    metric. *)
Theorem poll_schedule_follows_readiness (m : StandardMetrics) (tr : list Event) :
  ms_v_env_on m = false ->
  let s := after m tr in
  polled_in (m_poll_state s) =
    (if ms_v_env_on (StdMetrics s)
     then [0xF190; 0xE002; 0xE003; 0xE004; 0xE009; 0xE010; 0xE025]
     else [0xE004]) /\
  map poll_pid maxt90_polls = [0xF190; 0xE002; 0xE003; 0xE004; 0xE009; 0xE010; 0xE025] /\
  (forall p, In p (map poll_pid maxt90_polls) ->
     exists (s0 : Vehicle) (r : poll_reply),
       pid r = p /\ emitted s0 (Reply r) <> []).
Proof.
  intros Hoff s.
  assert (Hinv : poll_inv s).
  { subst s. unfold after. apply run_poll_inv, constructed_poll_inv, Hoff. }
  split; [|split].
  - unfold poll_inv in Hinv. rewrite Hinv.
    destruct (ms_v_env_on (StdMetrics s)); reflexivity.
  - reflexivity.
  - intros p Hp. cbn in Hp.
    assert (Hon : ms_v_env_on (StdMetrics (step fresh (Reply ready_on))) = true)
      by (vm_compute; reflexivity).
    destruct Hp as [<- | [<- | [<- | [<- | [<- | [<- | [<- | []]]]]]]].
    + exists fresh, vin_reply. split; [reflexivity | vm_compute; discriminate].
    + exists fresh, soc_80. split; [reflexivity | vm_compute; discriminate].
    + exists fresh, soh_95. split; [reflexivity | vm_compute; discriminate].
    + exists fresh, ready_on. split; [reflexivity | vm_compute; discriminate].
    + exists fresh, plug_in. split; [reflexivity | vm_compute; discriminate].
    + exists fresh, hvac_215. split; [reflexivity | vm_compute; discriminate].
    + exists fresh, ambient_215. split; [reflexivity | vm_compute; discriminate].
Qed.

Lemma poll_schedule_follows_readiness_witness :
  polled_in (m_poll_state (after unset_metrics [])) = [0xE004] /\
  polled_in (m_poll_state (after unset_metrics [Reply ready_on; Frame volt_226])) =
    [0xF190; 0xE002; 0xE003; 0xE004; 0xE009; 0xE010; 0xE025] /\
  polled_in (m_poll_state (after unset_metrics [Reply ready_on; Reply ready_off])) =
    [0xE004].
Proof.
  destruct (poll_schedule_follows_readiness unset_metrics [] eq_refl) as (H0 & _).
  destruct (poll_schedule_follows_readiness unset_metrics
              [Reply ready_on; Frame volt_226] eq_refl) as (H1 & _).
  destruct (poll_schedule_follows_readiness unset_metrics
              [Reply ready_on; Reply ready_off] eq_refl) as (H2 & _).
  rewrite H0, H1, H2. vm_compute. repeat split.
Defined.

(** ** The custom metrics over whole runs *)

(** X20.  No delivery clears or replaces the two custom-metric pointers:
    after any sequence of deliveries since construction both are still
    set, so the null tests of the SOH and HVAC decoders never hold, and
    the nominal capacity still reads 88.5. *)
Theorem custom_metrics_stay_registered (m : StandardMetrics) (tr : list Event) :
  non_null (m_hvac_temp_c (after m tr)) = true /\
  m_pack_capacity_kwh (after m tr) = Some f88_5 /\
  (forall s e, non_null (m_hvac_temp_c (step s e)) = non_null (m_hvac_temp_c s) /\
               m_pack_capacity_kwh (step s e) = m_pack_capacity_kwh s).
Proof.
  split; [|split].
  - unfold after. induction tr as [|e tr IH] using rev_ind.
    + destruct m. reflexivity.
    + rewrite run_snoc, step_m_hvac_temp_c. exact IH.
  - unfold after. rewrite run_m_pack_capacity_kwh. apply constructed_pack_capacity.
  - intros s e. split; [apply step_m_hvac_temp_c | apply step_m_pack_capacity_kwh].
Qed.

(** ** Default values and the poll schedule *)

(** X21.  After any sequence of deliveries since construction over a store
    whose readiness metric was false, the defaults of a sleeping car are
    dropped exactly while the poll list has their PID switched off: a
    0xE010 reply with raw 458 is published if and only if 0xE010 is polled
    in the current poll state, and a 0xE025 reply with raw 75 if and only
    if 0xE025 is. *)
Theorem defaults_dropped_while_not_polled (m : StandardMetrics) (tr : list Event) :
  ms_v_env_on m = false ->
  let s := after m tr in
  forall r : poll_reply,
    2 <= reply_length r ->
    (pid r = 0xE010 -> u16be (reply_data r) = 458 ->
       (emitted s (Reply r) <> [] <-> In 0xE010 (polled_in (m_poll_state s)))) /\
    (pid r = 0xE025 -> u16be (reply_data r) = 75 ->
       (emitted s (Reply r) <> [] <-> In 0xE025 (polled_in (m_poll_state s)))).
Proof.
  intros Hoff s r Hlen. apply Z.leb_le in Hlen.
  assert (Hnn : non_null (m_hvac_temp_c s) = true).
  { subst s. unfold after. clear Hoff Hlen.
    induction tr as [|e tr IH] using rev_ind.
    - destruct m. reflexivity.
    - rewrite run_snoc, step_m_hvac_temp_c. exact IH. }
  assert (Hinv : poll_inv s).
  { subst s. unfold after. apply run_poll_inv, constructed_poll_inv, Hoff. }
  unfold poll_inv in Hinv.
  assert (Hp1 : polled_in POLL_ON =
                [0xF190; 0xE002; 0xE003; 0xE004; 0xE009; 0xE010; 0xE025])
    by reflexivity.
  assert (Hp0 : polled_in POLL_OFF = [0xE004]) by reflexivity.
  assert (Hb1 : hvac_bogus 458 (div (of_int 458) f10) = false)
    by (vm_compute; reflexivity).
  assert (Hb2 : ambient_bogus 75 (div (of_int 75) f10) = false)
    by (vm_compute; reflexivity).
  split; intros Hpid Hraw.
  - assert (Hem : emitted s (Reply r) =
              if ms_v_env_on (StdMetrics s)
              then [W_hvac_temp (div (of_int 458) f10)] else []).
    { unfold_handlers. rewrite Hpid. cbn. rewrite Hlen, Hraw, Hnn. cbn.
      destruct (ms_v_env_on (StdMetrics s)); cbn; [|reflexivity].
      rewrite Hb1. reflexivity. }
    rewrite Hem, Hinv. destruct (ms_v_env_on (StdMetrics s)).
    + rewrite Hp1. split; [intros _; cbn; tauto | discriminate].
    + rewrite Hp0. split; [congruence|].
      cbn. intros [H | []]. discriminate H.
  - assert (Hem : emitted s (Reply r) =
              if ms_v_env_on (StdMetrics s)
              then [W_env_temp (div (of_int 75) f10)] else []).
    { unfold_handlers. rewrite Hpid. cbn. rewrite Hlen, Hraw. cbn.
      destruct (ms_v_env_on (StdMetrics s)); cbn; [|reflexivity].
      rewrite Hb2. reflexivity. }
    rewrite Hem, Hinv. destruct (ms_v_env_on (StdMetrics s)).
    + rewrite Hp1. split; [intros _; cbn; tauto | discriminate].
    + rewrite Hp0. split; [congruence|].
      cbn. intros [H | []]. discriminate H.
Qed.

Lemma defaults_dropped_while_not_polled_witness :
  emitted (after unset_metrics []) (Reply hvac_458) = [] /\
  emitted (after unset_metrics [Reply ready_on]) (Reply hvac_458) <> [].
Proof.
  assert (H2 : 2 <= reply_length hvac_458) by (vm_compute; congruence).
  destruct (defaults_dropped_while_not_polled unset_metrics [] eq_refl hvac_458 H2)
    as (Hoff & _).
  destruct (defaults_dropped_while_not_polled unset_metrics [Reply ready_on]
              eq_refl hvac_458 H2) as (Hon & _).
  split.
  - destruct (emitted (after unset_metrics []) (Reply hvac_458)) eqn:He;
      [reflexivity|].
    exfalso.
    assert (Hin : In 0xE010 (polled_in (m_poll_state (after unset_metrics [])))).
    { apply (Hoff eq_refl eq_refl). discriminate. }
    vm_compute in Hin. intuition discriminate.
  - apply (Hon eq_refl eq_refl). vm_compute. tauto.
Defined.

(** ** What the decoders read of a delivery *)

(** X22.  Only the handbrake decoder depends on the announced data
    length: for every frame whose identifier is not 0x266, changing the
    data length code, payload unchanged, changes neither the resulting
    state nor the writes.  In particular the lock, AC and odometer
    decoders decode payload bytes the frame does not announce. *)
Theorem only_handbrake_reads_dlc (s : Vehicle) (f : CAN_frame_t) (dlc : Z) :
  MsgID f <> 0x266 ->
  step s (Frame (with_DLC f dlc)) = step s (Frame f) /\
  emitted s (Frame (with_DLC f dlc)) = emitted s (Frame f).
Proof.
  intros Hid. apply Z.eqb_neq in Hid.
  unfold step, emitted, handle, IncomingFrameCan1,
    OvmsVehicleOBDII_IncomingFrameCan1, with_DLC.
  rewrite !andThen_skip_l. cbn [origin MsgID].
  destruct (negb (Nat.eqb (origin f) m_can1)); [split; reflexivity|].
  rewrite Hid.
  destruct (MsgID f =? 0x281); [split; reflexivity|].
  destruct (MsgID f =? 0x362); [split; reflexivity|].
  destruct (MsgID f =? 0x373); [split; reflexivity|].
  destruct (MsgID f =? 0x510).
  { unfold case_0x510. cbn [DLC data].
    destruct (dlc <? 4); destruct (DLC f <? 4); split; reflexivity. }
  destruct (MsgID f =? 0x540); split; reflexivity.
Qed.

Lemma only_handbrake_reads_dlc_witness :
  emitted fresh (Frame (with_DLC odo_192656 0)) =
    [W_pos_odometer (S754_finite false 9863987 (-9))].
Proof.
  destruct (only_handbrake_reads_dlc fresh odo_192656 0) as (_ & Hw).
  - vm_compute. discriminate.
  - rewrite Hw. vm_compute. reflexivity.
Defined.

(** X23.  Apart from the VIN, a poll reply is decoded from its first two
    bytes at most: two replies with the same PID that agree on their first
    two bytes lead to the same state and the same writes, whatever follows
    those bytes. *)
Theorem trailing_reply_bytes_are_ignored
  (s : Vehicle) (p : Z) (a b : byte) (rest rest' : list byte) :
  p <> 0xF190 ->
  let r := mk_reply p (a :: b :: rest) in
  let r' := mk_reply p (a :: b :: rest') in
  step s (Reply r) = step s (Reply r') /\
  emitted s (Reply r) = emitted s (Reply r').
Proof.
  intros Hp r r'. apply Z.eqb_neq in Hp.
  assert (Hu : u16be (a :: b :: rest) = u16be (a :: b :: rest')).
  { rewrite !u16be_value. reflexivity. }
  assert (Hl2 : forall l, (2 <=? reply_length (mk_reply p (a :: b :: l))) = true).
  { intros l. apply Z.leb_le, reply_length_cons2. }
  assert (Hl1 : forall l, (1 <=? reply_length (mk_reply p (a :: b :: l))) = true).
  { intros l. apply Z.leb_le, reply_length_cons. }
  assert (Hh : handle (Reply r) s = handle (Reply r') s).
  { subst r r'. unfold handle, IncomingPollReply. cbn [pid]. rewrite Hp.
    unfold case_0xE002, case_0xE003, case_0xE004, case_0xE009, case_0xE010,
      case_0xE025, ready_of.
    rewrite !Hl1, !Hl2. cbn [reply_data]. rewrite Hu.
    change (at_ (a :: b :: rest) 0) with (at_ (a :: b :: rest') 0).
    reflexivity. }
  unfold step, emitted. rewrite Hh. split; reflexivity.
Qed.

Lemma trailing_reply_bytes_are_ignored_witness :
  emitted fresh (Reply (mk_reply 0xE003 [x25; x1c; xff; xff])) =
  emitted fresh (Reply soh_95).
Proof.
  destruct (trailing_reply_bytes_are_ignored fresh 0xE003 x25 x1c [xff; xff] [])
    as (_ & Hw).
  - discriminate.
  - exact Hw.
Defined.
